(** * rede.py: periodic bandwidth sampler of one network interface

    Shallow embedding of [src/rede.py] (functions [send_alert],
    [get_available_interfaces], [auto_select_interface] and
    [monitor_network_traffic]) and the properties of it that the
    specification states.

    Modelling decisions.
    - The host (psutil and the [time] module) is an interface, the class
      [Host]: every query takes the host's state and gives the next state
      with either a value or a raised exception.
    - The program runs in a state and exception monad [M].  Its state holds
      the host, the diagnostics written so far ([logging] and the beep of
      [send_alert]) and the five list objects that
      [monitor_network_traffic] allocates on its first line and mutates in
      place: an exception leaves them as they were when it was raised.
    - Python [int] byte counters are [N] (psutil reports unsigned counts),
      Python [float] values (clock readings, rates) are exact rationals [Q]:
      rounding of the floating point operations is not modelled.
    - A [dict] is an association list kept in insertion order, which is the
      order psutil reports interfaces in.
    - The [while] loop takes fuel: whether it ends depends on the host's
      clock. *)

From Stdlib Require Import ZArith NArith QArith Qround List String Bool Lia.
Import ListNotations.

Set Implicit Arguments.

Open Scope string_scope.
Open Scope list_scope.

(** ** Host data *)

(** [psutil._common.snetio] *)
Record snetio := mk_snetio {
  bytes_sent : N;
  bytes_recv : N;
  packets_sent : N;
  packets_recv : N;
  errin : N;
  errout : N;
  dropin : N;
  dropout : N
}.

(** [psutil._common.snicstats]; [flags] is its only string field. *)
Record snicstats := mk_snicstats {
  isup : bool;
  duplex : Z;
  speed : Z;
  mtu : Z;
  flags : string
}.

(** [psutil._common.sconn]; the program only counts these. *)
Record sconn := mk_sconn {
  fd : Z;
  laddr : string;
  raddr : string;
  status : string;
  pid : option N
}.

Inductive conn_kind := kind_tcp | kind_udp.

(** ** Dictionaries and lists as Python has them *)

Definition dict (V : Type) := list (string * V).

Fixpoint dict_get {V} (k : string) (d : dict V) : option V :=
  match d with
  | [] => None
  | (k', v) :: d' => if String.eqb k k' then Some v else dict_get k d'
  end.

Definition dict_keys {V} (d : dict V) : list string := map fst d.

Definition dict_values {V} (d : dict V) : list V := map snd d.

(** A Python dict has each key once. *)
Definition dict_wf {V} (d : dict V) : Prop := NoDup (dict_keys d).

(** [x in l] for a list of strings *)
Definition list_in (x : string) (l : list string) : bool :=
  existsb (String.eqb x) l.

(** [l.remove(x)]: drops the first occurrence (called only when present). *)
Fixpoint list_remove (x : string) (l : list string) : list string :=
  match l with
  | [] => []
  | y :: l' => if String.eqb x y then l' else y :: list_remove x l'
  end.

(** ** Numbers *)

Definition Qltb (x y : Q) : bool := negb (Qle_bool y x).

(** Round to the nearest integer, ties to the even one. *)
Definition round_half_even (q : Q) : Z :=
  let f := Qfloor q in
  match Qcompare (q - inject_Z f) (1 # 2) with
  | Lt => f
  | Gt => (f + 1)%Z
  | Eq => if Z.even f then f else (f + 1)%Z
  end.

(** [round(x, 1)] *)
Definition py_round1 (q : Q) : Q :=
  inject_Z (round_half_even (q * 10)) / 10.

(** Lines 137-138: [((current - initial) * 8) / (interval * 1024 * 1024)] *)
Definition bandwidth (current initial : N) (interval : Q) : Q :=
  inject_Z ((Z.of_N current - Z.of_N initial) * 8)
  / (interval * 1024 * 1024).

(** ** Exceptions, host responses, diagnostics *)

(** What can be raised at a host call inside the program: the interpreter
    turns SIGINT into [KeyboardInterrupt]; psutil and [time] raise
    subclasses of [Exception]. *)
Inductive exn :=
| KeyboardInterrupt
| Exception (msg : string).

Inductive response (A : Type) :=
| Returns (a : A)
| Raises (e : exn).
Arguments Raises {A} e.

(** The messages of [send_alert], by call site. *)
Inductive Alert :=
| AlertInvalidInterval                      (* line 93 *)
| AlertInterfaceNotFound (interface : string)   (* line 98 *)
| AlertStatusUnavailable (interface : string)   (* line 115 *)
| AlertLinkDown (interface : string)            (* line 119 *)
| AlertCountersUnavailable (interface : string) (* line 126 *)
| AlertInterrupted                          (* line 160 *)
| AlertError (msg : string)                 (* line 162 *)
| AlertNoActiveInterface.                   (* line 43 *)

Inductive InfoMsg :=
| InterfaceActive (interface : string)          (* line 41 *)
| AvailableInterfaces (names : list string)     (* lines 99, 116, 127 *)
| MonitoringStarted (interface : string).       (* line 108 *)

Inductive DebugMsg :=
| CurrentCounters (sent recv : N)               (* line 134 *)
| Bandwidth (sent recv total : Q)               (* line 155 *)
| Connections (tcp udp icmp : nat).             (* line 156 *)

Inductive Event :=
| Warning (a : Alert)
| Info (i : InfoMsg)
| Debug (d : DebugMsg).

(** ** The host interface *)

Class Host (W : Type) := {
  (** [psutil.net_io_counters(pernic=True)] *)
  net_io_counters : W -> W * response (dict snetio);
  (** [psutil.net_if_stats()] *)
  net_if_stats : W -> W * response (dict snicstats);
  (** [psutil.net_connections(kind=...)] *)
  net_connections : conn_kind -> W -> W * response (list sconn);
  (** [time.time()] *)
  time_time : W -> W * response Q;
  (** [time.sleep(secs)] *)
  time_sleep : Q -> W -> W * response unit
}.

(** ** Program state and monad *)

Record State (W : Type) := mkState {
  world : W;
  log : list Event;
  time_values : list Q;
  bw_values : list Q;
  tcp_values : list nat;
  udp_values : list nat;
  icmp_values : list nat
}.

Inductive outcome (A : Type) :=
| Ok (a : A)
| Raise (e : exn)
| OutOfFuel.
Arguments Raise {A} e.
Arguments OutOfFuel {A}.

Definition M (W A : Type) := State W -> State W * outcome A.

Definition ret {W A} (a : A) : M W A := fun st => (st, Ok a).

Definition bind {W A B} (c : M W A) (k : A -> M W B) : M W B :=
  fun st =>
    match c st with
    | (st', Ok a) => k a st'
    | (st', Raise e) => (st', Raise e)
    | (st', OutOfFuel) => (st', OutOfFuel)
    end.

(** [try: c  except KeyboardInterrupt / except Exception as e: h e] *)
Definition try_except {W A} (c : M W A) (h : exn -> M W A) : M W A :=
  fun st =>
    match c st with
    | (st', Raise e) => h e st'
    | r => r
    end.

Declare Scope prog_scope.
Delimit Scope prog_scope with prog.
Notation "x <- c ;; k" := (bind c (fun x => k))
  (at level 100, c at next level, right associativity) : prog_scope.
Notation "c ;; k" := (bind c (fun _ => k))
  (at level 100, right associativity) : prog_scope.

(** The returned 5-tuple. *)
Definition Samples : Type :=
  (list Q * list Q * list nat * list nat * list nat)%type.

Definition no_samples : Samples := ([], [], [], [], []).

Section Program.

Context {W : Type} `{Host W}.

Local Open Scope prog_scope.

(** A host query run by the program. *)
Definition call {A} (q : W -> W * response A) : M W A :=
  fun st =>
    let (w', r) := q (world st) in
    let st' := mkState w' (log st) (time_values st) (bw_values st)
                 (tcp_values st) (udp_values st) (icmp_values st) in
    match r with
    | Returns a => (st', Ok a)
    | Raises e => (st', Raise e)
    end.

Definition emit (ev : Event) : M W unit :=
  fun st =>
    (mkState (world st) (log st ++ [ev]) (time_values st) (bw_values st)
       (tcp_values st) (udp_values st) (icmp_values st), Ok tt).

(** [send_alert(message)]: a warning on the log, and a beep. *)
Definition send_alert (message : Alert) : M W unit := emit (Warning message).

Definition logging_info (m : InfoMsg) : M W unit := emit (Info m).

Definition logging_debug (m : DebugMsg) : M W unit := emit (Debug m).

(** Line 90: five fresh lists. *)
Definition new_lists : M W unit :=
  fun st => (mkState (world st) (log st) [] [] [] [] [], Ok tt).

Definition time_values_append (x : Q) : M W unit :=
  fun st =>
    (mkState (world st) (log st) (time_values st ++ [x]) (bw_values st)
       (tcp_values st) (udp_values st) (icmp_values st), Ok tt).

Definition bw_values_append (x : Q) : M W unit :=
  fun st =>
    (mkState (world st) (log st) (time_values st) (bw_values st ++ [x])
       (tcp_values st) (udp_values st) (icmp_values st), Ok tt).

Definition tcp_values_append (x : nat) : M W unit :=
  fun st =>
    (mkState (world st) (log st) (time_values st) (bw_values st)
       (tcp_values st ++ [x]) (udp_values st) (icmp_values st), Ok tt).

Definition udp_values_append (x : nat) : M W unit :=
  fun st =>
    (mkState (world st) (log st) (time_values st) (bw_values st)
       (tcp_values st) (udp_values st ++ [x]) (icmp_values st), Ok tt).

Definition icmp_values_append (x : nat) : M W unit :=
  fun st =>
    (mkState (world st) (log st) (time_values st) (bw_values st)
       (tcp_values st) (udp_values st) (icmp_values st ++ [x]), Ok tt).

(** Line 164: the tuple of the five lists. *)
Definition the_lists : M W Samples :=
  fun st =>
    (st, Ok (time_values st, bw_values st, tcp_values st, udp_values st,
             icmp_values st)).

(** *** [get_available_interfaces] (lines 23-31) *)
Definition get_available_interfaces : M W (list string) :=
  counters <- call net_io_counters ;;
  let interfaces := dict_keys counters in
  if list_in "lo" interfaces
  then ret (list_remove "lo" interfaces)
  else ret interfaces.

(** *** [auto_select_interface] (lines 33-44) *)

(** The [for] loop of lines 38-42: [Some] is the [return] inside it. *)
Fixpoint auto_select_loop (available : list string) : M W (option string) :=
  match available with
  | [] => ret None
  | interface :: rest =>
      counters <- call net_io_counters ;;
      (* [stats and (...)]: a [snetio] tuple is true, [None] is not *)
      match dict_get interface counters with
      | Some stats =>
          if (0 <? bytes_sent stats)%N || (0 <? bytes_recv stats)%N
          then logging_info (InterfaceActive interface) ;;
               ret (Some interface)
          else auto_select_loop rest
      | None => auto_select_loop rest
      end
  end.

Definition auto_select_interface : M W (option string) :=
  available <- get_available_interfaces ;;
  found <- auto_select_loop available ;;
  match found with
  | Some interface => ret (Some interface)
  | None => send_alert AlertNoActiveInterface ;; ret None
  end.

(** *** [monitor_network_traffic] (lines 79-164) *)

(** ['icmp' in s] for a [snicstats] tuple: equality with one of its fields;
    only [flags] is a string. *)
Definition icmp_in (s : snicstats) : bool := String.eqb "icmp" (flags s).

(** How one pass of the [while] loop ends: the next pass runs with the
    counters just read, or the loop is left (condition false, or [break]). *)
Inductive ctl :=
| Next (current_bytes_sent current_bytes_recv : N)
| Leave.

Section Loop.

Variables (interface : string) (duration interval : Q) (force_monitor : bool).
Variable start_time : Q.

(** Lines 111-158: the loop condition and the body, once. *)
Definition iteration (initial_bytes_sent initial_bytes_recv : N) : M W ctl :=
  now <- call time_time ;;
  let elapsed := now - start_time in
  if Qltb elapsed duration then
    if_stats <- call net_if_stats ;;
    match dict_get interface if_stats with
    | None =>
        send_alert (AlertStatusUnavailable interface) ;;
        available <- get_available_interfaces ;;
        logging_info (AvailableInterfaces available) ;;
        ret Leave
    | Some interface_stats =>
        if negb (isup interface_stats) && negb force_monitor then
          send_alert (AlertLinkDown interface) ;;
          ret Leave
        else
          time_values_append (py_round1 elapsed) ;;
          counters <- call net_io_counters ;;
          match dict_get interface counters with
          | None =>
              send_alert (AlertCountersUnavailable interface) ;;
              available <- get_available_interfaces ;;
              logging_info (AvailableInterfaces available) ;;
              ret Leave
          | Some current_stats =>
              let current_bytes_sent := bytes_sent current_stats in
              let current_bytes_recv := bytes_recv current_stats in
              logging_debug
                (CurrentCounters current_bytes_sent current_bytes_recv) ;;
              let sent_bw :=
                bandwidth current_bytes_sent initial_bytes_sent interval in
              let recv_bw :=
                bandwidth current_bytes_recv initial_bytes_recv interval in
              let total_bw := sent_bw + recv_bw in
              bw_values_append total_bw ;;
              tcp_stats <- call (net_connections kind_tcp) ;;
              udp_stats <- call (net_connections kind_udp) ;;
              icmp_stats <- call net_if_stats ;;
              tcp_values_append (List.length tcp_stats) ;;
              udp_values_append (List.length udp_stats) ;;
              let icmp := List.length (filter icmp_in (dict_values icmp_stats)) in
              icmp_values_append icmp ;;
              logging_debug (Bandwidth sent_bw recv_bw total_bw) ;;
              logging_debug
                (Connections (List.length tcp_stats) (List.length udp_stats) icmp) ;;
              call (time_sleep interval) ;;
              ret (Next current_bytes_sent current_bytes_recv)
          end
    end
  else ret Leave.

(** The [while] statement. *)
Fixpoint while_loop (fuel : nat) (initial_bytes_sent initial_bytes_recv : N)
  : M W unit :=
  match fuel with
  | O => fun st => (st, OutOfFuel)
  | S fuel' =>
      c <- iteration initial_bytes_sent initial_bytes_recv ;;
      match c with
      | Next current_bytes_sent current_bytes_recv =>
          while_loop fuel' current_bytes_sent current_bytes_recv
      | Leave => ret tt
      end
  end.

End Loop.

(** The two [except] clauses, lines 159-162. *)
Definition handler (e : exn) : M W unit :=
  match e with
  | KeyboardInterrupt => send_alert AlertInterrupted
  | Exception msg => send_alert (AlertError msg)
  end.

Definition monitor_network_traffic (interface : string) (duration interval : Q)
  (force_monitor : bool) (fuel : nat) : M W Samples :=
  new_lists ;;
  if Qle_bool interval 0 then
    send_alert AlertInvalidInterval ;;
    ret no_samples
  else
    stats <- call net_io_counters ;;
    match dict_get interface stats with
    | None =>
        send_alert (AlertInterfaceNotFound interface) ;;
        available <- get_available_interfaces ;;
        logging_info (AvailableInterfaces available) ;;
        ret no_samples
    | Some initial_stats =>
        let initial_bytes_sent := bytes_sent initial_stats in
        let initial_bytes_recv := bytes_recv initial_stats in
        start_time <- call time_time ;;
        logging_info (MonitoringStarted interface) ;;
        try_except
          (while_loop interface duration interval force_monitor start_time
             fuel initial_bytes_sent initial_bytes_recv)
          handler ;;
        the_lists
    end.

End Program.

(** ** A scripted host

    The host answers each kind of query from a list of prepared responses,
    in order; a query past the end of its list raises. *)

Record Script := mkScript {
  io_script : list (response (dict snetio));
  if_script : list (response (dict snicstats));
  conn_script : list (response (list sconn));
  time_script : list (response Q);
  sleep_script : list (response unit)
}.

Definition exhausted {A} : response A := Raises (Exception "script exhausted").

Definition next_response {A} (l : list (response A))
  : list (response A) * response A :=
  match l with
  | [] => ([], exhausted)
  | r :: l' => (l', r)
  end.

#[export] Instance ScriptHost : Host Script := {
  net_io_counters w :=
    let (l, r) := next_response (io_script w) in
    (mkScript l (if_script w) (conn_script w) (time_script w)
       (sleep_script w), r);
  net_if_stats w :=
    let (l, r) := next_response (if_script w) in
    (mkScript (io_script w) l (conn_script w) (time_script w)
       (sleep_script w), r);
  net_connections _ w :=
    let (l, r) := next_response (conn_script w) in
    (mkScript (io_script w) (if_script w) l (time_script w)
       (sleep_script w), r);
  time_time w :=
    let (l, r) := next_response (time_script w) in
    (mkScript (io_script w) (if_script w) (conn_script w) l
       (sleep_script w), r);
  time_sleep _ w :=
    let (l, r) := next_response (sleep_script w) in
    (mkScript (io_script w) (if_script w) (conn_script w) (time_script w)
       l, r)
}.

(** The state a caller starts a function in. *)
Definition start_state {W} (w : W) : State W := mkState w [] [] [] [] [] [].

Definition counters_of (sent recv : N) : snetio :=
  mk_snetio sent recv 0 0 0 0 0 0.

Definition nic (up : bool) : snicstats := mk_snicstats up 2 1000 1500 "up".

Definition Ret_n {A} (n : nat) (a : A) : list (response A) :=
  repeat (Returns a) n.

(** Section 8's run: interval 1 s, duration 3 s, 131072 more bytes sent at
    each tick. *)
Definition steady_host : Script :=
  mkScript
    [Returns [("lo", counters_of 7 7); ("eth0", counters_of 0 0)];
     Returns [("lo", counters_of 7 7); ("eth0", counters_of 131072 0)];
     Returns [("lo", counters_of 7 7); ("eth0", counters_of 262144 0)];
     Returns [("lo", counters_of 7 7); ("eth0", counters_of 393216 0)]]
    (Ret_n 6 [("lo", nic true); ("eth0", nic true)])
    (Ret_n 6 [])
    [Returns 100%Q; Returns 100%Q; Returns 101%Q; Returns 102%Q; Returns 103%Q]
    (Ret_n 3 tt).


(** ** The rest of the script: speed test, plot and [main]

    These functions call two more libraries, write messages of their own and
    leave through [sys.exit].  Their monad [A] has the host and one journal
    of everything written or drawn; a computation of [M] runs in it with its
    events taken over into the journal. *)

(** What can leave a function of the script. *)
Inductive pyexn :=
| Plain (e : exn)
| ConfigRetrievalError (msg : string)   (* a subclass of [Exception] *)
| SystemExit (code : Z).                (* [sys.exit(code)] *)

Inductive attempt (A : Type) :=
| Gives (a : A)
| Throws (e : pyexn).
Arguments Throws {A} e.

(** The calls of [matplotlib.pyplot] the script makes; the constant styling
    arguments (markers, line styles, texts of labels) are left out. *)
Inductive Series := series_bandwidth | series_tcp | series_udp | series_icmp.

Inductive ydata :=
| Rates (ys : list Q)
| Counts (ys : list nat).

Inductive plt_call :=
| plt_figure
| plt_plot (series : Series) (xs : list Q) (ys : ydata)
| plt_text (x y : Q)                    (* the text is [y] with two decimals *)
| plt_xlabel
| plt_ylabel
| plt_title
| plt_grid
| plt_legend
| plt_tight_layout
| plt_savefig (path : string)
| plt_show.

(** The messages of [send_alert] and [logging.info] in these functions. *)
Inductive AppAlert :=
| AlertSlowDownload                     (* line 69 *)
| AlertSlowUpload                       (* line 71 *)
| AlertConfigRetrieval (msg : string)   (* line 76 *)
| AlertSaveFailed (msg : string)        (* line 200 *)
| AlertNoInterfaceInSystem              (* line 224 *)
| AlertCaptureFailed.                   (* line 242 *)

Inductive AppInfo :=
| DownloadSpeed (mbps : Q)              (* line 63 *)
| UploadSpeed (mbps : Q)                (* line 64 *)
| PingTime (ms : Q)                     (* line 65 *)
| PlotSaved (path : string)             (* line 198 *)
| Starting (interface : string) (duration : Z).   (* line 227 *)

Inductive AppEvent :=
| Core (ev : Event)
| AppWarning (a : AppAlert)
| AppInfoLine (i : AppInfo)
| Printed (line : string)               (* [print] *)
| Drawn (c : plt_call).                 (* a call of pyplot, when made *)

(** [speedtest.Speedtest] *)
Class Speedtest (W : Type) := {
  (** [speedtest.Speedtest()] *)
  Speedtest_init : W -> W * attempt unit;
  get_best_server : W -> W * attempt unit;
  (** bits per second *)
  download : W -> W * attempt Q;
  upload : W -> W * attempt Q;
  (** [st.results.ping] *)
  results_ping : W -> Q
}.

Class Pyplot (W : Type) := {
  pyplot : plt_call -> W -> W * response unit
}.

Record AppState (W : Type) := mkApp {
  aworld : W;
  journal : list AppEvent
}.

Inductive aoutcome (A : Type) :=
| Done (a : A)
| Raised (e : pyexn)
| Unfinished.
Arguments Raised {A} e.
Arguments Unfinished {A}.

Definition A (W X : Type) := AppState W -> AppState W * aoutcome X.

Definition aret {W X} (x : X) : A W X := fun s => (s, Done x).

Definition abind {W X Y} (c : A W X) (k : X -> A W Y) : A W Y :=
  fun s =>
    match c s with
    | (s', Done x) => k x s'
    | (s', Raised e) => (s', Raised e)
    | (s', Unfinished) => (s', Unfinished)
    end.

Declare Scope app_scope.
Delimit Scope app_scope with app.
Notation "x <- c ;; k" := (abind c (fun x => k))
  (at level 100, c at next level, right associativity) : app_scope.
Notation "c ;; k" := (abind c (fun _ => k))
  (at level 100, right associativity) : app_scope.

(** [try: c  except speedtest.ConfigRetrievalError as e: h e] *)
Definition try_config {W X} (c : A W X) (h : string -> A W X) : A W X :=
  fun s =>
    match c s with
    | (s', Raised (ConfigRetrievalError msg)) => h msg s'
    | r => r
    end.

(** [try: c  except Exception as e: h e]; [KeyboardInterrupt] and
    [SystemExit] pass. *)
Definition try_exception {W X} (c : A W X) (h : string -> A W X) : A W X :=
  fun s =>
    match c s with
    | (s', Raised (Plain (Exception msg))) => h msg s'
    | (s', Raised (ConfigRetrievalError msg)) => h msg s'
    | r => r
    end.

(** The parsed command line ([argparse.Namespace]). *)
Record Namespace := mkArgs {
  arg_interface : option string;
  arg_duration : Z;
  arg_interval : Z;
  arg_save : option string;
  arg_force : bool;
  arg_list : bool
}.

(** Truth value of an optional string: [None] and [""] are false. *)
Definition truthy (o : option string) : bool :=
  match o with
  | Some s => negb (String.eqb s "")
  | None => false
  end.

(** Truth value of a list. *)
Definition nonempty {X} (l : list X) : bool :=
  match l with
  | [] => false
  | _ => true
  end.

Section Application.

Context {W : Type} `{Host W} `{Speedtest W} `{Pyplot W}.

Local Open Scope app_scope.

(** A function of the first part, called here: its events enter the
    journal. *)
Definition lift {X} (c : M W X) : A W X :=
  fun s =>
    let (st', r) := c (mkState (aworld s) [] [] [] [] [] []) in
    (mkApp (world st') (journal s ++ map Core (log st')),
     match r with
     | Ok x => Done x
     | Raise e => Raised (Plain e)
     | OutOfFuel => Unfinished
     end).

Definition record (ev : AppEvent) : A W unit :=
  fun s => (mkApp (aworld s) (journal s ++ [ev]), Done tt).

(** [send_alert] with the messages of these functions. *)
Definition app_alert (message : AppAlert) : A W unit :=
  record (AppWarning message).

Definition app_info (m : AppInfo) : A W unit := record (AppInfoLine m).

Definition print (line : string) : A W unit := record (Printed line).

(** [sys.exit(code)] *)
Definition sys_exit {X} (code : Z) : A W X :=
  fun s => (s, Raised (SystemExit code)).

(** A call of the speed test. *)
Definition measure {X} (q : W -> W * attempt X) : A W X :=
  fun s =>
    let (w', r) := q (aworld s) in
    (mkApp w' (journal s),
     match r with
     | Gives x => Done x
     | Throws e => Raised e
     end).

(** A call of pyplot. *)
Definition draw (c : plt_call) : A W unit :=
  fun s =>
    let (w', r) := pyplot c (aworld s) in
    (mkApp w' (journal s ++ [Drawn c]),
     match r with
     | Returns _ => Done tt
     | Raises e => Raised (Plain e)
     end).

(** *** [check_internet_speed] (lines 46-77) *)
Definition check_internet_speed : A W (option Q * option Q * option Q) :=
  measure Speedtest_init ;;
  try_config
    (measure get_best_server ;;
     bits_down <- measure download ;;
     let download_speed := (bits_down / 1000000)%Q in
     bits_up <- measure upload ;;
     let upload_speed := (bits_up / 1000000)%Q in
     ping <- (fun s => (s, Done (results_ping (aworld s)))) ;;
     app_info (DownloadSpeed download_speed) ;;
     app_info (UploadSpeed upload_speed) ;;
     app_info (PingTime ping) ;;
     (if Qltb download_speed 5 then app_alert AlertSlowDownload
      else aret tt) ;;
     (if Qltb upload_speed 1 then app_alert AlertSlowUpload else aret tt) ;;
     aret (Some download_speed, Some upload_speed, Some ping))
    (fun e =>
       app_alert (AlertConfigRetrieval e) ;;
       aret (None, None, None)).

(** *** [plot_network_traffic] (lines 166-201) *)

(** Lines 185-186, over [zip(time_values, bw_values)]. *)
Fixpoint draw_texts (points : list (Q * Q)) : A W unit :=
  match points with
  | [] => aret tt
  | (x, y) :: rest => draw (plt_text x y) ;; draw_texts rest
  end.

Definition plot_network_traffic (time_values bw_values : list Q)
  (tcp_values udp_values icmp_values : list nat) (save_path : option string)
  : A W unit :=
  draw plt_figure ;;
  draw (plt_plot series_bandwidth time_values (Rates bw_values)) ;;
  draw (plt_plot series_tcp time_values (Counts tcp_values)) ;;
  draw (plt_plot series_udp time_values (Counts udp_values)) ;;
  draw (plt_plot series_icmp time_values (Counts icmp_values)) ;;
  draw_texts (combine time_values bw_values) ;;
  draw plt_xlabel ;;
  draw plt_ylabel ;;
  draw plt_title ;;
  draw plt_grid ;;
  draw plt_legend ;;
  draw plt_tight_layout ;;
  (match save_path with
   | Some path =>
       if truthy save_path then
         try_exception
           (draw (plt_savefig path) ;;
            app_info (PlotSaved path))
           (fun e => app_alert (AlertSaveFailed e))
       else aret tt
   | None => aret tt
   end) ;;
  draw plt_show.

(** *** [main] (lines 203-242), from the parsed arguments on *)

(** Lines 216-217 *)
Fixpoint print_interfaces (names : list string) : A W unit :=
  match names with
  | [] => aret tt
  | iface :: rest => print ("- " ++ iface) ;; print_interfaces rest
  end.

Definition main (args : Namespace) (fuel : nat) : A W unit :=
  (if arg_list args then
     print "Interfaces disponíveis:" ;;
     names <- lift get_available_interfaces ;;
     print_interfaces names ;;
     sys_exit 0
   else aret tt) ;;
  interface <- (if truthy (arg_interface args)
                then aret (arg_interface args)
                else lift auto_select_interface) ;;
  match interface with
  | Some name =>
      if truthy interface then
        app_info (Starting name (arg_duration args)) ;;
        check_internet_speed ;;
        samples <- lift (monitor_network_traffic name
                           (inject_Z (arg_duration args))
                           (inject_Z (arg_interval args))
                           (arg_force args) fuel) ;;
        let '(time_values, bw_values, tcp_values, udp_values, icmp_values) :=
          samples in
        if nonempty time_values && nonempty bw_values then
          plot_network_traffic time_values bw_values tcp_values udp_values
            icmp_values (arg_save args)
        else app_alert AlertCaptureFailed
      else
        app_alert AlertNoInterfaceInSystem ;;
        sys_exit 1
  | None =>
      app_alert AlertNoInterfaceInSystem ;;
      sys_exit 1
  end.

(** *** Definitions used to state the properties of these functions *)

Definition text_of (p : Q * Q) : AppEvent := Drawn (plt_text (fst p) (snd p)).

(** The calls before the figure is saved. *)
Definition drawing (time_values bw_values : list Q)
  (tcp_values udp_values icmp_values : list nat) : list AppEvent :=
  [Drawn plt_figure;
   Drawn (plt_plot series_bandwidth time_values (Rates bw_values));
   Drawn (plt_plot series_tcp time_values (Counts tcp_values));
   Drawn (plt_plot series_udp time_values (Counts udp_values));
   Drawn (plt_plot series_icmp time_values (Counts icmp_values))]
  ++ map text_of (combine time_values bw_values)
  ++ [Drawn plt_xlabel; Drawn plt_ylabel; Drawn plt_title; Drawn plt_grid;
      Drawn plt_legend; Drawn plt_tight_layout].

(** [j'] is [j] with more events, the last of which is the call [c]. *)
Definition ends_in (j j' : list AppEvent) (c : plt_call) : Prop :=
  exists evs, j' = j ++ evs ++ [Drawn c].

Definition listed_line (name : string) : AppEvent := Printed ("- " ++ name).

Definition ylength (ys : ydata) : nat :=
  match ys with
  | Rates l => List.length l
  | Counts l => List.length l
  end.

(** A series is drawn over a time list that is not empty, against values
    that are as many as the times or one fewer; the bandwidth series is not
    empty. *)
Definition well_plotted (ev : AppEvent) : Prop :=
  match ev with
  | Drawn (plt_plot series xs ys) =>
      xs <> [] /\
      (ylength ys <= List.length xs <= S (ylength ys))%nat /\
      (series = series_bandwidth -> ylength ys <> 0%nat)
  | _ => True
  end.

(** A computation that always ends and that an exception leaves only from
    the call of pyplot made last, never as an [Exception] of
    [plt.savefig]. *)
Definition stops_at_call {X} (c : A W X) : Prop :=
  forall s s' r,
    c s = (s', r) ->
    match r with
    | Done _ => exists evs, journal s' = journal s ++ evs
    | Raised e =>
        exists call e',
          ends_in (journal s) (journal s') call /\ e = Plain e' /\
          (forall path, call = plt_savefig path -> e' = KeyboardInterrupt)
    | Unfinished => False
    end.

(** Everything a computation writes satisfies [P]. *)
Definition writes {X} (P : AppEvent -> Prop) (c : A W X) : Prop :=
  forall s s' r,
    c s = (s', r) ->
    exists evs, journal s' = journal s ++ evs /\ Forall P evs.

End Application.

(** ** Definitions used to state the properties *)


(** The five lists of a state, as line 164 returns them. *)
Definition lists_of {W} (st : State W) : Samples :=
  (time_values st, bw_values st, tcp_values st, udp_values st,
   icmp_values st).

(** [l'] is [l] with elements added at its end. *)
Definition extends {A} (l l' : list A) : Prop := exists more, l' = l ++ more.

(** The names [get_available_interfaces] returns for a counters dict. *)
Definition listed_interfaces (counters : dict snetio) : list string :=
  if list_in "lo" (dict_keys counters)
  then list_remove "lo" (dict_keys counters)
  else dict_keys counters.



Section Sessions.

Context {W : Type} `{Host W}.

Definition set_world (st : State W) (w : W) : State W :=
  mkState w (log st) (time_values st) (bw_values st) (tcp_values st)
    (udp_values st) (icmp_values st).

Definition add_log (st : State W) (evs : list Event) : State W :=
  mkState (world st) (log st ++ evs) (time_values st) (bw_values st)
    (tcp_values st) (udp_values st) (icmp_values st).

(** The state in which [monitor_network_traffic] enters its [try], with the
    start time and the initial counters, when it gets there: the interface
    is among those the host reports and the clock answers. *)
Definition loop_entry (interface : string) (st : State W)
  : option (State W * Q * N * N) :=
  match net_io_counters (world st) with
  | (w1, Returns stats) =>
      match dict_get interface stats with
      | Some initial_stats =>
          match time_time w1 with
          | (w2, Returns start_time) =>
              Some (mkState w2 (log st ++ [Info (MonitoringStarted interface)])
                      [] [] [] [] [],
                    start_time, bytes_sent initial_stats,
                    bytes_recv initial_stats)
          | _ => None
          end
      | None => None
      end
  | _ => None
  end.

(** [n] passes of the loop in a row that each end in the next pass. *)
Fixpoint run_iters (interface : string) (duration interval : Q)
  (force_monitor : bool) (start_time : Q) (n : nat) (sent recv : N)
  (st : State W) : option (State W * N * N) :=
  match n with
  | O => Some (st, sent, recv)
  | S n' =>
      match iteration interface duration interval force_monitor start_time
              sent recv st with
      | (st', Ok (Next sent' recv')) =>
          run_iters interface duration interval force_monitor start_time n'
            sent' recv' st'
      | _ => None
      end
  end.

(** The session after [n] complete ticks: its state, start time and the
    counters of the last tick. *)
Definition after_ticks (interface : string) (duration interval : Q)
  (force_monitor : bool) (n : nat) (st : State W)
  : option (State W * Q * N * N) :=
  match loop_entry interface st with
  | Some (st0, start_time, sent0, recv0) =>
      match run_iters interface duration interval force_monitor start_time n
              sent0 recv0 st0 with
      | Some (stn, sent, recv) => Some (stn, start_time, sent, recv)
      | None => None
      end
  | None => None
  end.

(** Every list only grows. *)
Definition grows (st st' : State W) : Prop :=
  extends (time_values st) (time_values st') /\
  extends (bw_values st) (bw_values st') /\
  extends (tcp_values st) (tcp_values st') /\
  extends (udp_values st) (udp_values st') /\
  extends (icmp_values st) (icmp_values st').

(** All five lists have [k] elements. *)
Definition level (k : nat) (st : State W) : Prop :=
  List.length (time_values st) = k /\ List.length (bw_values st) = k /\
  List.length (tcp_values st) = k /\ List.length (udp_values st) = k /\
  List.length (icmp_values st) = k.

(** What the function does once it has entered the [try]. *)
Definition sampling interface duration interval force_monitor start_time
  fuel sent recv : M W Samples :=
  (try_except
     (while_loop interface duration interval force_monitor start_time fuel
        sent recv)
     handler ;;
   the_lists)%prog.

(** The alert of the [except] clause that catches [e]. *)
Definition alert_of (e : exn) : Alert :=
  match e with
  | KeyboardInterrupt => AlertInterrupted
  | Exception msg => AlertError msg
  end.

(** The warning of line 126: the counters query gave nothing for the
    interface. *)
Definition counters_unavailable_alert (ev : Event) : bool :=
  match ev with
  | Warning (AlertCountersUnavailable _) => true
  | _ => false
  end.

(** The warnings of the two [except] clauses. *)
Definition exception_alert (ev : Event) : bool :=
  match ev with
  | Warning AlertInterrupted | Warning (AlertError _) => true
  | _ => false
  end.

(** How the two lists stand when the loop is over, given the events
    written since it started: one more time value exactly when the counters
    were found unavailable or, possibly, when an exception was raised. *)
Definition balance (raised : bool) (evs : list Event) (st : State W) : Prop :=
  if existsb counters_unavailable_alert evs
  then List.length (time_values st) = S (List.length (bw_values st))
  else List.length (time_values st) = List.length (bw_values st) \/
       (raised = true /\
        List.length (time_values st) = S (List.length (bw_values st))).

Definition iteration_post (st : State W) (res : State W * outcome ctl)
  : Prop :=
  let (st', r) := res in
  exists evs,
    log st' = log st ++ evs /\
    existsb exception_alert evs = false /\
    match r with
    | Ok (Next _ _) =>
        existsb counters_unavailable_alert evs = false /\
        List.length (time_values st') = List.length (bw_values st')
    | Ok Leave => balance false evs st'
    | Raise _ => balance true evs st'
    | OutOfFuel => False
    end.

Definition loop_post (st : State W) (res : State W * outcome unit) : Prop :=
  let (st', r) := res in
  exists evs,
    log st' = log st ++ evs /\
    existsb exception_alert evs = false /\
    match r with
    | Ok _ => balance false evs st'
    | Raise _ => balance true evs st'
    | OutOfFuel => True
    end.




(** *** Further definitions for the sampling loop *)

Definition is_warning (ev : Event) : bool :=
  match ev with
  | Warning _ => true
  | _ => false
  end.

(** The warning of line 119. *)
Definition link_down_alert (ev : Event) : bool :=
  match ev with
  | Warning (AlertLinkDown _) => true
  | _ => false
  end.

(** How the lengths of the five lists stand to each other: the three
    connection lists are filled together, after the bandwidth list, which is
    filled after the time list. *)
Definition staggered (st : State W) : Prop :=
  List.length (tcp_values st) = List.length (udp_values st) /\
  List.length (udp_values st) = List.length (icmp_values st) /\
  (List.length (icmp_values st) <= List.length (bw_values st))%nat /\
  (List.length (bw_values st) <= List.length (time_values st))%nat /\
  (List.length (time_values st) <= S (List.length (icmp_values st)))%nat.

(** The order in which a pass fills the lists (lines 122, 140, 147, 148,
    149): none is longer than the one filled before it, and the first is at
    most one element ahead of the last. *)
Definition ordered_lengths (st : State W) : Prop :=
  (List.length (icmp_values st) <= List.length (udp_values st))%nat /\
  (List.length (udp_values st) <= List.length (tcp_values st))%nat /\
  (List.length (tcp_values st) <= List.length (bw_values st))%nat /\
  (List.length (bw_values st) <= List.length (time_values st))%nat /\
  (List.length (time_values st) <= S (List.length (icmp_values st)))%nat.

(** The [for] loop of lines 38-42 has tried the interfaces of [names] in
    turn, starting from the host state [w], and has returned at none of
    them: the counters query made for each one had no entry for it, or an
    entry that had moved no byte.  [w'] is the host state after the last of
    these queries. *)
Fixpoint passed_over (names : list string) (w w' : W) : Prop :=
  match names with
  | [] => w' = w
  | name :: rest =>
      exists w1 counters,
        net_io_counters w = (w1, Returns counters) /\
        match dict_get name counters with
        | Some stats => (bytes_sent stats = 0 /\ bytes_recv stats = 0)%N
        | None => True
        end /\
        passed_over rest w1 w'
  end.

(** The five lists have the same length: the state between two passes. *)
Definition aligned (st : State W) : Prop :=
  List.length (time_values st) = List.length (bw_values st) /\
  List.length (bw_values st) = List.length (tcp_values st) /\
  List.length (tcp_values st) = List.length (udp_values st) /\
  List.length (udp_values st) = List.length (icmp_values st).

(** The events written since [st0] are not link-down warnings. *)
Definition no_link_down_since (st0 st : State W) : Prop :=
  exists evs,
    log st = log st0 ++ evs /\ existsb link_down_alert evs = false.

(** The events of the start-up of [monitor_network_traffic]. *)
Definition early_event (ev : Event) : bool :=
  match ev with
  | Warning AlertInvalidInterval
  | Warning (AlertInterfaceNotFound _)
  | Info (AvailableInterfaces _) => true
  | _ => false
  end.

(** [st] with the events of [l] before its own. *)
Definition after_log (l : list Event) (st : State W) : State W :=
  mkState (world st) (l ++ log st) (time_values st) (bw_values st)
    (tcp_values st) (udp_values st) (icmp_values st).

Definition framed {X} (l : list Event) (res : State W * outcome X)
  : State W * outcome X :=
  (after_log l (fst res), snd res).

End Sessions.

(** ** Scripted sessions *)

Definition eth0_counters (sent recv : N) : dict snetio :=
  [("lo", counters_of 7 7); ("eth0", counters_of sent recv)].

Definition eth0_status (up : bool) : dict snicstats :=
  [("lo", nic true); ("eth0", nic up)].

(** The state of a session at the loop, or [st] when it has none. *)
Definition session_state {W} (st : State W)
  (o : option (State W * Q * N * N)) : State W :=
  match o with
  | Some (s, _, _, _) => s
  | None => st
  end.

(** The link is up at the first tick and down at the second. *)
Definition link_down_host : Script :=
  mkScript
    [Returns (eth0_counters 0 0); Returns (eth0_counters 131072 0)]
    [Returns (eth0_status true); Returns (eth0_status true);
     Returns (eth0_status false)]
    (Ret_n 2 [])
    [Returns 100%Q; Returns 100%Q; Returns 101%Q]
    [Returns tt].

(** The user interrupts the sleep of the second tick. *)
Definition interrupt_host : Script :=
  mkScript
    [Returns (eth0_counters 0 0); Returns (eth0_counters 131072 0);
     Returns (eth0_counters 262144 0)]
    (Ret_n 4 (eth0_status true))
    (Ret_n 4 [])
    [Returns 100%Q; Returns 100%Q; Returns 101%Q]
    [Returns tt; Raises KeyboardInterrupt].

(** The counters query of the first tick raises. *)
Definition failing_counters_host : Script :=
  mkScript
    [Returns (eth0_counters 0 0); Raises (Exception "read error")]
    [Returns (eth0_status true)]
    []
    [Returns 100%Q; Returns 100%Q]
    [].



(** Section 8's hosts for [selectActiveInterface]. *)
Definition select_counters : dict snetio :=
  [("eth0", counters_of 0 0); ("eth1", counters_of 100 50);
   ("eth2", counters_of 0 0)].

Definition select_host : Script :=
  mkScript (Ret_n 4 select_counters) [] [] [] [].

Definition silent_counters : dict snetio :=
  [("lo", counters_of 9 9); ("eth0", counters_of 0 0);
   ("eth1", counters_of 0 0)].

Definition silent_host : Script :=
  mkScript (Ret_n 4 silent_counters) [] [] [] [].

Definition steady_entry : State Script :=
  Eval vm_compute in
    session_state (start_state steady_host)
      (loop_entry "eth0" (start_state steady_host)).

Definition steady_tick1 : State Script :=
  Eval vm_compute in fst (iteration "eth0" 3 1 false 100 0 0 steady_entry).

Definition link_down_tick1 : State Script :=
  Eval vm_compute in
    session_state (start_state link_down_host)
      (after_ticks "eth0" 30 1 false 1 (start_state link_down_host)).

Definition link_down_world : Script :=
  Eval vm_compute in
    fst (net_if_stats (fst (time_time (world link_down_tick1)))).

(** [w] after [n] counters queries and [m] clock readings. *)
Definition later (n m : nat) (w : Script) : Script :=
  mkScript (skipn n (io_script w)) (if_script w) (conn_script w)
    (skipn m (time_script w)) (sleep_script w).

Definition interrupt_tick1 : State Script :=
  Eval vm_compute in
    session_state (start_state interrupt_host)
      (after_ticks "eth0" 30 1 false 1 (start_state interrupt_host)).

Definition interrupt_tick2 : State Script :=
  Eval vm_compute in
    fst (iteration "eth0" 30 1 false 100 131072 0 interrupt_tick1).

Definition failing_final : State Script :=
  Eval vm_compute in
    fst (monitor_network_traffic "eth0" 30 1 false 3
           (start_state failing_counters_host)).



(** The counters of eth1 start to move while the interfaces are tried. *)
Definition waking_host : Script :=
  mkScript
    [Returns [("lo", counters_of 7 7); ("eth0", counters_of 0 0);
              ("eth1", counters_of 0 0)];
     Returns [("lo", counters_of 7 7); ("eth0", counters_of 0 0);
              ("eth1", counters_of 0 0)];
     Returns [("lo", counters_of 8 8); ("eth0", counters_of 0 0);
              ("eth1", counters_of 0 64)]]
    [] [] [] [].

(** The interface leaves the status table at the second tick. *)
Definition vanished_host : Script :=
  mkScript
    [Returns (eth0_counters 0 0); Returns (eth0_counters 131072 0);
     Returns [("lo", counters_of 7 7)]]
    [Returns (eth0_status true); Returns (eth0_status true);
     Returns [("lo", nic true)]]
    (Ret_n 2 [])
    [Returns 100%Q; Returns 100%Q; Returns 101%Q]
    [Returns tt].

(** The interface leaves the counters dict at the second tick. *)
Definition unplugged_host : Script :=
  mkScript
    [Returns (eth0_counters 0 0); Returns (eth0_counters 131072 0);
     Returns [("lo", counters_of 7 7)]; Returns [("lo", counters_of 7 7)]]
    (Ret_n 3 (eth0_status true))
    (Ret_n 2 [])
    [Returns 100%Q; Returns 100%Q; Returns 101%Q]
    [Returns tt].

(** The host has no wlan0, and its counters cannot be read a second
    time. *)
Definition unlisted_host : Script :=
  mkScript
    [Returns (eth0_counters 0 0); Raises (Exception "gone")]
    [] [] [] [].

(** The interface is missing from the status table at the first tick, and
    the counters cannot be read for the names to log. *)
Definition unlisted_in_loop_host : Script :=
  mkScript
    [Returns (eth0_counters 0 0); Raises (Exception "gone")]
    [Returns [("lo", nic true)]]
    []
    [Returns 100%Q; Returns 100%Q]
    [].

(** The only pass begins 0.96 s after the start. *)
Definition late_host : Script :=
  mkScript
    [Returns (eth0_counters 0 0); Returns (eth0_counters 131072 0)]
    (Ret_n 2 (eth0_status true))
    (Ret_n 2 [])
    [Returns 100%Q; Returns (2524 # 25)%Q; Returns 102%Q]
    [Returns tt].

(** The clock is set back a quarter of a second between the reading of line
    107 and the first test of the loop condition. *)
Definition clock_back_host : Script :=
  mkScript
    [Returns (eth0_counters 0 0); Returns (eth0_counters 131072 0)]
    (Ret_n 2 (eth0_status true))
    (Ret_n 2 [])
    [Returns 100%Q; Returns (399 # 4)%Q; Returns 101%Q]
    [Returns tt].

(** The link is down all along; two connections are open. *)
Definition down_host : Script :=
  mkScript
    [Returns (eth0_counters 0 0); Returns (eth0_counters 131072 65536)]
    (Ret_n 2 (eth0_status false))
    [Returns [mk_sconn 3 "10.0.0.2:22" "10.0.0.9:5050" "ESTABLISHED"
                (Some 812%N);
              mk_sconn 4 "10.0.0.2:80" "" "LISTEN" None];
     Returns []]
    [Returns 100%Q; Returns 100%Q; Returns 101%Q]
    [Returns tt].

Definition vanished_tick1 : State Script :=
  Eval vm_compute in
    session_state (start_state vanished_host)
      (after_ticks "eth0" 30 1 true 1 (start_state vanished_host)).

Definition unplugged_tick1 : State Script :=
  Eval vm_compute in
    session_state (start_state unplugged_host)
      (after_ticks "eth0" 30 1 false 1 (start_state unplugged_host)).

Definition steady_tick3 : State Script :=
  Eval vm_compute in
    session_state (start_state steady_host)
      (after_ticks "eth0" 3 1 false 3 (start_state steady_host)).

Definition down_entry : State Script :=
  Eval vm_compute in
    session_state (start_state down_host)
      (loop_entry "eth0" (start_state down_host)).

Definition down_final : State Script :=
  Eval vm_compute in
    fst (monitor_network_traffic "eth0" 1 1 true 3 (start_state down_host)).

Definition unplugged_final : State Script :=
  Eval vm_compute in
    fst (monitor_network_traffic "eth0" 30 1 false 3
           (start_state unplugged_host)).

Definition steady_end_world : Script :=
  Eval vm_compute in fst (time_time (world steady_tick3)).

(** A script with nothing left. *)
Definition drained : Script := mkScript [] [] [] [] [].

(** ** A scripted desk: network, speed test and pyplot *)

Record Desk := mkDesk {
  desk_net : Script;
  init_script : list (attempt unit);
  server_script : list (attempt unit);
  download_script : list (attempt Q);
  upload_script : list (attempt Q);
  ping_ms : Q;
  pyplot_script : list (response unit)
}.

Definition with_net (d : Desk) (n : Script) : Desk :=
  mkDesk n (init_script d) (server_script d) (download_script d)
    (upload_script d) (ping_ms d) (pyplot_script d).

Definition next_attempt {A} (l : list (attempt A))
  : list (attempt A) * attempt A :=
  match l with
  | [] => ([], Throws (Plain (Exception "script exhausted")))
  | r :: l' => (l', r)
  end.

(** Past the end of its script pyplot just returns. *)
Definition next_drawing (l : list (response unit))
  : list (response unit) * response unit :=
  match l with
  | [] => ([], Returns tt)
  | r :: l' => (l', r)
  end.

#[export] Instance DeskHost : Host Desk | 100 := {
  net_io_counters d :=
    let (n, r) := net_io_counters (desk_net d) in (with_net d n, r);
  net_if_stats d :=
    let (n, r) := net_if_stats (desk_net d) in (with_net d n, r);
  net_connections k d :=
    let (n, r) := net_connections k (desk_net d) in (with_net d n, r);
  time_time d :=
    let (n, r) := time_time (desk_net d) in (with_net d n, r);
  time_sleep i d :=
    let (n, r) := time_sleep i (desk_net d) in (with_net d n, r)
}.

#[export] Instance DeskSpeedtest : Speedtest Desk := {
  Speedtest_init d :=
    let (l, r) := next_attempt (init_script d) in
    (mkDesk (desk_net d) l (server_script d) (download_script d)
       (upload_script d) (ping_ms d) (pyplot_script d), r);
  get_best_server d :=
    let (l, r) := next_attempt (server_script d) in
    (mkDesk (desk_net d) (init_script d) l (download_script d)
       (upload_script d) (ping_ms d) (pyplot_script d), r);
  download d :=
    let (l, r) := next_attempt (download_script d) in
    (mkDesk (desk_net d) (init_script d) (server_script d) l
       (upload_script d) (ping_ms d) (pyplot_script d), r);
  upload d :=
    let (l, r) := next_attempt (upload_script d) in
    (mkDesk (desk_net d) (init_script d) (server_script d)
       (download_script d) l (ping_ms d) (pyplot_script d), r);
  results_ping d := ping_ms d
}.

#[export] Instance DeskPyplot : Pyplot Desk := {
  pyplot _ d :=
    let (l, r) := next_drawing (pyplot_script d) in
    (mkDesk (desk_net d) (init_script d) (server_script d)
       (download_script d) (upload_script d) (ping_ms d) l, r)
}.

Definition app_start (d : Desk) : AppState Desk := mkApp d [].

(** A desk whose speed test measures 4 Mbit/s down, 2 Mbit/s up and 23 ms,
    and whose pyplot always returns. *)
Definition desk (n : Script) : Desk :=
  mkDesk n [Gives tt] [Gives tt] [Gives 4000000%Q] [Gives 2000000%Q] 23
    [].

(** The same with a speed test that cannot get its configuration during
    the download. *)
Definition offline_desk (n : Script) : Desk :=
  mkDesk n [Gives tt] [Gives tt]
    [Throws (ConfigRetrievalError "HTTP Error 403")] [] 0 [].

(** A desk on which [plt.savefig], the thirteenth call, raises. *)
Definition full_disk_desk (n : Script) : Desk :=
  mkDesk n [Gives tt] [Gives tt] [Gives 4000000%Q] [Gives 2000000%Q] 23
    (Ret_n 12 tt ++ [Raises (Exception "No space left on device")]).

(** A desk on which the user interrupts [plt.show], the thirteenth call
    when nothing is saved. *)
Definition closing_desk (n : Script) : Desk :=
  mkDesk n [Gives tt] [Gives tt] [Gives 4000000%Q] [Gives 2000000%Q] 23
    (Ret_n 12 tt ++ [Raises KeyboardInterrupt]).

Definition list_args : Namespace :=
  mkArgs (Some "eth0") 30 1 None false true.

Definition auto_args : Namespace := mkArgs None 30 1 None false false.

Definition bad_interval_args : Namespace :=
  mkArgs (Some "eth0") 30 0 None false false.

Definition save_args : Namespace :=
  mkArgs (Some "eth0") 30 1 (Some "plot.png") false false.

Definition slow_final : AppState Desk :=
  Eval vm_compute in fst (check_internet_speed (app_start (desk drained))).

Definition offline_final : AppState Desk :=
  Eval vm_compute in
    fst (check_internet_speed (app_start (offline_desk drained))).

Definition full_disk_final : AppState Desk :=
  Eval vm_compute in
    fst (plot_network_traffic [0%Q; 1%Q] [3%Q] [5%nat] [6%nat] [0%nat]
           (Some "plot.png") (app_start (full_disk_desk drained))).

Definition closing_final : AppState Desk :=
  Eval vm_compute in
    fst (plot_network_traffic [0%Q; 1%Q] [3%Q] [5%nat] [6%nat] [0%nat]
           None (app_start (closing_desk drained))).

Definition silent_selected : State Desk :=
  Eval vm_compute in
    fst (auto_select_interface
           (mkState (desk silent_host) [] [] [] [] [] [])).

Definition bad_interval_checked : AppState Desk :=
  Eval vm_compute in
    fst (check_internet_speed
           (mkApp (desk steady_host)
              [AppInfoLine (Starting "eth0" 30)])).

Definition unplugged_main_final : AppState Desk :=
  Eval vm_compute in
    fst (main save_args 3 (app_start (desk unplugged_host))).

Definition waking_final : State Script :=
  Eval vm_compute in fst (auto_select_interface (start_state waking_host)).

Definition used_state : State Script :=
  mkState failing_counters_host [Warning AlertInvalidInterval] [1%Q; 2%Q]
    [3%Q] [] [] [].

(** * Properties *)

Section Facts.

Context {W : Type} `{Host W}.

(** *** Stepping through the program *)

Ltac unfold_prog :=
  unfold iteration, get_available_interfaces, bind, ret, call, send_alert,
    logging_info, logging_debug, emit, time_values_append, bw_values_append,
    tcp_values_append, udp_values_append, icmp_values_append in *.

(** Split on the next host response, lookup or test the program branches on. *)
Ltac split_query Hr q :=
  let w := fresh "w" in let a := fresh "a" in let e := fresh "e" in
  let E := fresh "E" in
  destruct q as [w [a|e]] eqn:E; cbn in Hr.

Ltac split_step Hr :=
  match type of Hr with
  | context [time_time ?w] => split_query Hr (time_time w)
  | context [net_if_stats ?w] => split_query Hr (net_if_stats w)
  | context [net_io_counters ?w] => split_query Hr (net_io_counters w)
  | context [net_connections ?k ?w] => split_query Hr (net_connections k w)
  | context [time_sleep ?i ?w] => split_query Hr (time_sleep i w)
  | context [match dict_get ?k ?d with _ => _ end] =>
      let E := fresh "E" in destruct (dict_get k d) eqn:E; cbn in Hr
  | context [if ?b then _ else _] =>
      let E := fresh "E" in destruct b eqn:E; cbn in Hr
  end.

(** All the ways one pass of the loop can go, from [Hit : iteration ... = _]. *)
Ltac iteration_cases Hit st :=
  destruct st; unfold_prog; cbn in Hit; repeat split_step Hit;
  inversion Hit; subst; clear Hit; cbn.

(** The events a branch has written: what its log has after the old one. *)
Ltac give_events :=
  eexists; split;
  [ first [ symmetry; apply app_nil_r
          | rewrite <- ?app_assoc; reflexivity ]
  | ].

(** *** The checks before the loop *)

(** The same on the goal. *)
Ltac split_goal :=
  match goal with
  | |- context [time_time ?w] =>
      destruct (time_time w) as [? [?|?]]; cbn
  | |- context [net_if_stats ?w] =>
      destruct (net_if_stats w) as [? [?|?]]; cbn
  | |- context [net_io_counters ?w] =>
      destruct (net_io_counters w) as [? [?|?]]; cbn
  | |- context [net_connections ?k ?w] =>
      destruct (net_connections k w) as [? [?|?]]; cbn
  | |- context [time_sleep ?i ?w] =>
      destruct (time_sleep i w) as [? [?|?]]; cbn
  | |- context [match dict_get ?k ?d with _ => _ end] =>
      destruct (dict_get k d); cbn
  | |- context [if ?b then _ else _] => destruct b; cbn
  end.

Lemma Qle_bool_false (x y : Q) : (y < x)%Q -> Qle_bool x y = false.
Proof.
  intros Hlt. destruct (Qle_bool x y) eqn:E; [|reflexivity].
  apply Qle_bool_iff in E. exfalso. apply (Qlt_not_le _ _ Hlt E).
Qed.

Lemma Qltb_true (x y : Q) : (x < y)%Q -> Qltb x y = true.
Proof. intros Hlt. unfold Qltb. now rewrite Qle_bool_false. Qed.

Lemma Qltb_false (x y : Q) : (y <= x)%Q -> Qltb x y = false.
Proof.
  intros Hle. unfold Qltb. apply Qle_bool_iff in Hle. now rewrite Hle.
Qed.

Lemma get_available_interfaces_returns (st : State W) w counters :
  net_io_counters (world st) = (w, Returns counters) ->
  get_available_interfaces st = (set_world st w, Ok (listed_interfaces counters)).
Proof.
  intros Hq. unfold get_available_interfaces, bind, call, listed_interfaces.
  rewrite Hq. cbn. destruct (list_in "lo" (dict_keys counters)); reflexivity.
Qed.

(** C4.  A call with a non-positive interval warns that the interval must be
    positive, asks the host nothing (its state is unchanged) and returns five
    empty lists, whatever the other arguments and the fuel are. *)
Theorem monitor_invalid_interval (interface : string) (duration interval : Q)
  (force_monitor : bool) (fuel : nat) (st : State W) :
  (interval <= 0)%Q ->
  monitor_network_traffic interface duration interval force_monitor fuel st
  = (mkState (world st) (log st ++ [Warning AlertInvalidInterval])
       [] [] [] [] [],
     Ok no_samples).
Proof.
  intros Hle. apply Qle_bool_iff in Hle.
  unfold monitor_network_traffic, bind, new_lists. rewrite Hle. reflexivity.
Qed.

(** A call with a valid interval for an interface the host does not report
    at start, when the second counters query (the one of line 99, for the
    names to log) answers: the call warns that the interface was not found,
    logs the names the host reports now, returns five empty lists, and has
    asked the host for its counters twice and for nothing else. *)
Lemma monitor_interface_not_found (interface : string)
  (duration interval : Q) (force_monitor : bool) (fuel : nat) (st : State W)
  (w1 w2 : W) (stats current : dict snetio) :
  (0 < interval)%Q ->
  net_io_counters (world st) = (w1, Returns stats) ->
  dict_get interface stats = None ->
  net_io_counters w1 = (w2, Returns current) ->
  monitor_network_traffic interface duration interval force_monitor fuel st
  = (mkState w2
       (log st ++ [Warning (AlertInterfaceNotFound interface);
                   Info (AvailableInterfaces (listed_interfaces current))])
       [] [] [] [] [],
     Ok no_samples).
Proof.
  intros Hpos Hq Hget Hq2.
  unfold monitor_network_traffic, bind, new_lists.
  rewrite (Qle_bool_false Hpos). unfold call at 1. cbn. rewrite Hq, Hget.
  unfold send_alert, emit; cbn.
  erewrite get_available_interfaces_returns by (cbn; exact Hq2).
  unfold logging_info, emit, set_world; cbn. rewrite <- app_assoc. reflexivity.
Qed.

(** C5 does not hold of every call.  Line 99 asks the host for its counters
    a second time, for the names to log, and stands before the [try] of line
    110: when that query raises [e], for a valid interval and an interface
    the host did not report at start, the warning that the interface was not
    found is written, nothing is logged after it, and [e] leaves the
    function, which returns no lists at all.  (Lines 116 and 127 log the
    same names from inside the [try], where the same exception is caught.) *)
Theorem monitor_not_found_listing_raises (interface : string)
  (duration interval : Q) (force_monitor : bool) (fuel : nat) (st : State W)
  (w1 w2 : W) (stats : dict snetio) (e : exn) :
  (0 < interval)%Q ->
  net_io_counters (world st) = (w1, Returns stats) ->
  dict_get interface stats = None ->
  net_io_counters w1 = (w2, Raises e) ->
  monitor_network_traffic interface duration interval force_monitor fuel st
  = (mkState w2 (log st ++ [Warning (AlertInterfaceNotFound interface)])
       [] [] [] [] [],
     Raise e).
Proof.
  intros Hpos Hq Hget Hq2.
  unfold monitor_network_traffic, bind, new_lists.
  rewrite (Qle_bool_false Hpos). unfold call at 1. cbn. rewrite Hq, Hget.
  unfold send_alert, emit; cbn.
  unfold get_available_interfaces, bind, call; cbn. rewrite Hq2. reflexivity.
Qed.

(** *** The loop *)

Lemma extends_refl {A} (l : list A) : extends l l.
Proof. exists []. now rewrite app_nil_r. Qed.

Lemma extends_app {A} (l more : list A) : extends l (l ++ more).
Proof. now exists more. Qed.

Lemma extends_trans {A} (l1 l2 l3 : list A) :
  extends l1 l2 -> extends l2 l3 -> extends l1 l3.
Proof.
  intros [m1 ->] [m2 ->]. exists (m1 ++ m2). now rewrite app_assoc.
Qed.

#[local] Hint Resolve extends_refl extends_app : core.

Lemma grows_refl (st : State W) : grows st st.
Proof. repeat split; auto. Qed.

Lemma grows_trans (st1 st2 st3 : State W) :
  grows st1 st2 -> grows st2 st3 -> grows st1 st3.
Proof.
  intros (?&?&?&?&?) (?&?&?&?&?); repeat split; eapply extends_trans; eauto.
Qed.

Lemma iteration_grows interface duration interval force_monitor start_time
  sent recv (st st' : State W) res :
  iteration interface duration interval force_monitor start_time sent recv st
  = (st', res) ->
  grows st st'.
Proof.
  intros Hit. iteration_cases Hit st; repeat split; cbn; auto.
Qed.

Lemma iteration_next_level interface duration interval force_monitor
  start_time sent recv (st st' : State W) sent' recv' k :
  iteration interface duration interval force_monitor start_time sent recv st
  = (st', Ok (Next sent' recv')) ->
  level k st -> level (S k) st'.
Proof.
  intros Hit (?&?&?&?&?). iteration_cases Hit st; unfold level; cbn in *.
  repeat split; rewrite length_app; cbn; lia.
Qed.

Section Loop_facts.

Variables (interface : string) (duration interval : Q) (force_monitor : bool).
Variable start_time : Q.

Let iter := iteration interface duration interval force_monitor start_time.
Let loop := while_loop interface duration interval force_monitor start_time.
Let iters := run_iters interface duration interval force_monitor start_time.

Lemma while_loop_step fuel sent recv (st : State W) :
  loop (S fuel) sent recv st =
  match iter sent recv st with
  | (st', Ok (Next sent' recv')) => loop fuel sent' recv' st'
  | (st', Ok Leave) => (st', Ok tt)
  | (st', Raise e) => (st', Raise e)
  | (st', OutOfFuel) => (st', OutOfFuel)
  end.
Proof.
  unfold loop, iter. cbn [while_loop]. unfold bind at 1.
  destruct (iteration _ _ _ _ _ _ _ st) as [st' [[s r|]|e|]]; reflexivity.
Qed.

Lemma while_loop_run_iters n fuel :
  forall sent recv (st stn : State W) sentn recvn,
  iters n sent recv st = Some (stn, sentn, recvn) ->
  loop (n + fuel)%nat sent recv st = loop fuel sentn recvn stn.
Proof.
  induction n as [|n IH]; intros sent recv st stn sentn recvn Hn.
  - cbn in Hn. now inversion Hn.
  - change (S n + fuel)%nat with (S (n + fuel)). rewrite while_loop_step.
    unfold iters in Hn; cbn [run_iters] in Hn. fold iter in Hn.
    destruct (iter sent recv st) as [st' [[s r|]|e|]]; try discriminate.
    now apply IH.
Qed.

Lemma run_iters_level n :
  forall sent recv (st stn : State W) sentn recvn k,
  iters n sent recv st = Some (stn, sentn, recvn) ->
  level k st -> level (n + k)%nat stn.
Proof.
  induction n as [|n IH]; intros sent recv st stn sentn recvn k Hn Hk.
  - cbn in Hn. now inversion Hn; subst.
  - unfold iters in Hn; cbn [run_iters] in Hn.
    destruct (iteration _ _ _ _ _ _ _ st) as [st' [[s r|]|e|]] eqn:Hit;
      try discriminate.
    replace (S n + k)%nat with (n + S k)%nat by lia.
    eapply IH; [exact Hn|]. eapply iteration_next_level; eauto.
Qed.

Lemma run_iters_grows n :
  forall sent recv (st stn : State W) sentn recvn,
  iters n sent recv st = Some (stn, sentn, recvn) -> grows st stn.
Proof.
  induction n as [|n IH]; intros sent recv st stn sentn recvn Hn.
  - cbn in Hn. inversion Hn; subst. apply grows_refl.
  - unfold iters in Hn; cbn [run_iters] in Hn.
    destruct (iteration _ _ _ _ _ _ _ st) as [st' [[s r|]|e|]] eqn:Hit;
      try discriminate.
    eapply grows_trans; [eapply iteration_grows; eauto | eapply IH; eauto].
Qed.

End Loop_facts.

Lemma monitor_enters interface duration interval force_monitor fuel
  (st st0 : State W) start_time sent0 recv0 :
  (0 < interval)%Q ->
  loop_entry interface st = Some (st0, start_time, sent0, recv0) ->
  monitor_network_traffic interface duration interval force_monitor fuel st
  = sampling interface duration interval force_monitor start_time fuel
      sent0 recv0 st0.
Proof.
  intros Hpos Hent. unfold loop_entry in Hent.
  unfold monitor_network_traffic, sampling.
  unfold bind at 1. unfold new_lists at 1. rewrite (Qle_bool_false Hpos).
  unfold bind at 1. unfold call at 1. cbn [world].
  destruct (net_io_counters (world st)) as [w1 [stats|e]]; [|discriminate].
  destruct (dict_get interface stats) as [initial_stats|]; [|discriminate].
  unfold bind at 1. unfold call at 1. cbn [world].
  destruct (time_time w1) as [w2 [t|e]]; [|discriminate].
  inversion Hent; subst. reflexivity.
Qed.

Lemma entry_level interface (st st0 : State W) start_time sent0 recv0 :
  loop_entry interface st = Some (st0, start_time, sent0, recv0) ->
  level 0 st0.
Proof.
  unfold loop_entry. intros Hent.
  destruct (net_io_counters (world st)) as [w1 [stats|e]]; [|discriminate].
  destruct (dict_get interface stats) as [initial_stats|]; [|discriminate].
  destruct (time_time w1) as [w2 [t|e]]; [|discriminate].
  inversion Hent; subst. repeat split.
Qed.

Lemma after_ticks_level interface duration interval force_monitor n
  (st stn : State W) start_time sent recv :
  after_ticks interface duration interval force_monitor n st
  = Some (stn, start_time, sent, recv) ->
  level n stn.
Proof.
  unfold after_ticks. intros Ha.
  destruct (loop_entry interface st) as [[[[st0 t0] s0] r0]|] eqn:Hent;
    [|discriminate].
  destruct (run_iters _ _ _ _ _ _ _ _ st0) as [[[st' s'] r']|] eqn:Hn;
    [|discriminate].
  inversion Ha; subst. replace n with (n + 0)%nat by lia.
  eapply run_iters_level; eauto. eapply entry_level; eauto.
Qed.

(** After [n] complete ticks the function goes on as from that state. *)
Lemma monitor_after_ticks interface duration interval force_monitor n fuel
  (st stn : State W) start_time sent recv :
  (0 < interval)%Q ->
  after_ticks interface duration interval force_monitor n st
  = Some (stn, start_time, sent, recv) ->
  monitor_network_traffic interface duration interval force_monitor
    (n + fuel)%nat st
  = sampling interface duration interval force_monitor start_time fuel
      sent recv stn.
Proof.
  unfold after_ticks. intros Hpos Ha.
  destruct (loop_entry interface st) as [[[[st0 t0] s0] r0]|] eqn:Hent;
    [|discriminate].
  destruct (run_iters _ _ _ _ _ _ _ _ st0) as [[[st' s'] r']|] eqn:Hn;
    [|discriminate].
  inversion Ha; subst.
  erewrite monitor_enters by eauto.
  unfold sampling, bind, try_except.
  now erewrite while_loop_run_iters by eauto.
Qed.

(** The pass that leaves the loop ends the function with the lists as they
    are. *)
Lemma sampling_leaves interface duration interval force_monitor start_time
  fuel sent recv (st st' : State W) :
  iteration interface duration interval force_monitor start_time sent recv st
  = (st', Ok Leave) ->
  sampling interface duration interval force_monitor start_time (S fuel)
    sent recv st
  = (st', Ok (lists_of st')).
Proof.
  intros Hit. unfold sampling, bind, try_except.
  rewrite while_loop_step, Hit. reflexivity.
Qed.

(** A pass that raises ends the function too: the exception is caught, an
    alert is written and the lists are returned as they are. *)
Lemma sampling_raises interface duration interval force_monitor start_time
  fuel sent recv (st st' : State W) e :
  iteration interface duration interval force_monitor start_time sent recv st
  = (st', Raise e) ->
  sampling interface duration interval force_monitor start_time (S fuel)
    sent recv st
  = (add_log st' [Warning (alert_of e)], Ok (lists_of st')).
Proof.
  intros Hit. unfold sampling, bind, try_except.
  rewrite while_loop_step, Hit. destruct e; reflexivity.
Qed.

Lemma entry_log interface (st st0 : State W) start_time sent0 recv0 :
  loop_entry interface st = Some (st0, start_time, sent0, recv0) ->
  log st0 = log st ++ [Info (MonitoringStarted interface)].
Proof.
  unfold loop_entry. intros Hent.
  destruct (net_io_counters (world st)) as [w1 [stats|e]]; [|discriminate].
  destruct (dict_get interface stats) as [initial_stats|]; [|discriminate].
  destruct (time_time w1) as [w2 [t|e]]; [|discriminate].
  now inversion Hent; subst.
Qed.

(** C3.  With [force_monitor] false: when, after [n] complete ticks and with
    the duration not yet over, the host reports the interface as down, the
    function stops there.  It warns that the connection was interrupted, asks
    the host nothing more, and returns normally the lists as the [n] ticks
    left them, each of [n] elements; no exception is raised or reported. *)
Theorem monitor_link_down (interface : string) (duration interval : Q)
  (n fuel : nat) (st stn : State W) (start_time : Q) (sent recv : N)
  (w1 w2 : W) (now : Q) (if_stats : dict snicstats)
  (interface_stats : snicstats) :
  (0 < interval)%Q ->
  after_ticks interface duration interval false n st
  = Some (stn, start_time, sent, recv) ->
  time_time (world stn) = (w1, Returns now) ->
  (now - start_time < duration)%Q ->
  net_if_stats w1 = (w2, Returns if_stats) ->
  dict_get interface if_stats = Some interface_stats ->
  isup interface_stats = false ->
  monitor_network_traffic interface duration interval false (n + S fuel) st
  = (add_log (set_world stn w2) [Warning (AlertLinkDown interface)],
     Ok (lists_of stn))
  /\ level n stn.
Proof.
  intros Hpos Hafter Hclock Hlt Hstat Hget Hdown.
  split; [|eapply after_ticks_level; eauto].
  erewrite monitor_after_ticks by eauto.
  assert (Hit : iteration interface duration interval false start_time
                  sent recv stn
                = (add_log (set_world stn w2)
                     [Warning (AlertLinkDown interface)], Ok Leave)).
  { unfold_prog. rewrite Hclock. cbn. rewrite (Qltb_true Hlt). cbn.
    rewrite Hstat. cbn. rewrite Hget, Hdown. reflexivity. }
  now erewrite sampling_leaves by exact Hit.
Qed.

(** C6, amended.  With a duration of zero, a valid interval, an interface
    the host reports and a clock that does not run backwards between the
    start (line 107) and the first test of the loop condition (line 111),
    the loop body never runs: the function reads the clock once more,
    returns five empty lists and writes nothing but the start message. *)
Theorem monitor_zero_duration (interface : string) (interval : Q)
  (force_monitor : bool) (fuel : nat) (st st0 : State W) (start_time : Q)
  (sent0 recv0 : N) (w1 : W) (now : Q) :
  (0 < interval)%Q ->
  loop_entry interface st = Some (st0, start_time, sent0, recv0) ->
  time_time (world st0) = (w1, Returns now) ->
  (start_time <= now)%Q ->
  monitor_network_traffic interface 0 interval force_monitor (S fuel) st
  = (mkState w1 (log st ++ [Info (MonitoringStarted interface)])
       [] [] [] [] [],
     Ok no_samples).
Proof.
  intros Hpos Hent Hclock Hle.
  erewrite monitor_enters by eauto.
  assert (Hit : iteration interface 0 interval force_monitor start_time
                  sent0 recv0 st0 = (set_world st0 w1, Ok Leave)).
  { unfold_prog. rewrite Hclock. cbn. rewrite Qltb_false; [reflexivity|].
    unfold Qminus. rewrite <- Qle_minus_iff. exact Hle. }
  erewrite sampling_leaves by exact Hit.
  pose proof (entry_level _ _ Hent) as (Ht&Hb&Hc&Hu&Hi).
  pose proof (entry_log _ _ Hent) as Hlog.
  destruct st0 as [w0 l0 tv bv cv uv iv]; cbn in *.
  apply length_zero_iff_nil in Ht, Hb, Hc, Hu, Hi. subst. reflexivity.
Qed.

(** C8.  When, after [n] complete ticks, a [KeyboardInterrupt] is raised at
    any host call of the next pass of the loop, the function ends normally:
    it warns of the interruption and returns the lists as they were when the
    interrupt came, which hold everything the [n] ticks had put there (each
    list of that moment, of [n] elements, starts the returned one). *)
Theorem monitor_keyboard_interrupt (interface : string)
  (duration interval : Q) (force_monitor : bool) (n fuel : nat)
  (st stn ste : State W) (start_time : Q) (sent recv : N) :
  (0 < interval)%Q ->
  after_ticks interface duration interval force_monitor n st
  = Some (stn, start_time, sent, recv) ->
  iteration interface duration interval force_monitor start_time sent recv stn
  = (ste, Raise KeyboardInterrupt) ->
  monitor_network_traffic interface duration interval force_monitor
    (n + S fuel) st
  = (add_log ste [Warning AlertInterrupted], Ok (lists_of ste))
  /\ grows stn ste /\ level n stn.
Proof.
  intros Hpos Hafter Hit. split; [|split].
  - erewrite monitor_after_ticks by eauto.
    now erewrite sampling_raises by exact Hit.
  - eapply iteration_grows; eauto.
  - eapply after_ticks_level; eauto.
Qed.



(** *** The rate of a tick *)






(** *** Lengths of the time and bandwidth lists *)

(** The pass in which the counters query gives nothing for the interface:
    the time value is already in its list, no bandwidth value is added, the
    warning of line 126 is written, and the loop is left (or the query for
    the diagnostics raises). *)
Lemma iteration_counters_unavailable interface duration interval
  force_monitor start_time sent recv (st : State W) w1 now w2 if_stats
  interface_stats w3 counters :
  time_time (world st) = (w1, Returns now) ->
  (now - start_time < duration)%Q ->
  net_if_stats w1 = (w2, Returns if_stats) ->
  dict_get interface if_stats = Some interface_stats ->
  negb (isup interface_stats) && negb force_monitor = false ->
  net_io_counters w2 = (w3, Returns counters) ->
  dict_get interface counters = None ->
  exists st' r,
    iteration interface duration interval force_monitor start_time sent recv
      st = (st', r) /\
    (r = Ok Leave \/ exists e, r = Raise e) /\
    In (Warning (AlertCountersUnavailable interface)) (log st') /\
    time_values st' = time_values st ++ [py_round1 (now - start_time)] /\
    bw_values st' = bw_values st.
Proof.
  intros Hclock Hlt Hstat Hget Hup Hio Hnone.
  unfold_prog. rewrite Hclock. cbn. rewrite (Qltb_true Hlt). cbn.
  rewrite Hstat. cbn. rewrite Hget, Hup. cbn. rewrite Hio. cbn.
  rewrite Hnone. cbn.
  destruct (net_io_counters w3) as [w4 [current|e]]; cbn.
  - destruct (list_in "lo" (dict_keys current)); cbn;
      eexists _, _; (split; [reflexivity|]); cbn;
      rewrite !in_app_iff; cbn; intuition eauto.
  - eexists _, _. split; [reflexivity|]. cbn.
    rewrite !in_app_iff; cbn; intuition eauto.
Qed.

Lemma iteration_balance interface duration interval force_monitor
  start_time sent recv (st : State W) :
  List.length (time_values st) = List.length (bw_values st) ->
  iteration_post st
    (iteration interface duration interval force_monitor start_time sent recv
       st).
Proof.
  intros Hlen.
  destruct (iteration _ _ _ _ _ _ _ st) as [st' r] eqn:Hit.
  iteration_cases Hit st; cbn in Hlen; give_events;
    unfold balance; cbn; rewrite ?length_app; cbn; auto; try lia.
Qed.

Lemma while_loop_balance interface duration interval force_monitor
  start_time fuel :
  forall sent recv (st : State W),
  List.length (time_values st) = List.length (bw_values st) ->
  loop_post st
    (while_loop interface duration interval force_monitor start_time fuel
       sent recv st).
Proof.
  induction fuel as [|fuel IH]; intros sent recv st Hlen.
  - cbn. exists []. rewrite app_nil_r. auto.
  - rewrite while_loop_step.
    pose proof (iteration_balance interface duration interval force_monitor
                  start_time sent recv st Hlen) as Hpost.
    destruct (iteration _ _ _ _ _ _ _ st) as [st1 [[s1 r1|]|e|]];
      cbn in Hpost; destruct Hpost as (evs1 & Hlog1 & Hexc1 & Hrest).
    + destruct Hrest as (Hcu1 & Hlen1).
      specialize (IH s1 r1 st1 Hlen1).
      destruct (while_loop _ _ _ _ _ fuel s1 r1 st1) as [st2 r2].
      cbn in IH |- *. destruct IH as (evs2 & Hlog2 & Hexc2 & Hrest2).
      exists (evs1 ++ evs2). rewrite Hlog2, Hlog1, app_assoc.
      split; [reflexivity|]. rewrite existsb_app, Hexc1, Hexc2.
      split; [reflexivity|]. unfold balance in *.
      rewrite existsb_app, Hcu1. exact Hrest2.
    + cbn. exists evs1. auto.
    + cbn. exists evs1. auto.
    + contradiction.
Qed.

(** C9, amended.  Whenever the function returns, it returns its five lists,
    and with [evs] the events it has written: if the warning that the
    counters were unavailable is among them, the time list is exactly one
    element longer than the bandwidth list; if neither that warning nor the
    warning of an [except] clause is among them (the session ended by an
    invalid interval, an unknown interface, the duration being over, the
    status being unavailable or the link being down), the two lists have the
    same length; and in every case the time list is as long as the
    bandwidth list or one element longer. *)
Theorem monitor_lengths (interface : string) (duration interval : Q)
  (force_monitor : bool) (fuel : nat) (st st' : State W) (r : Samples) :
  monitor_network_traffic interface duration interval force_monitor fuel st
  = (st', Ok r) ->
  r = lists_of st' /\
  exists evs,
    log st' = log st ++ evs /\
    (existsb counters_unavailable_alert evs = true ->
     List.length (time_values st') = S (List.length (bw_values st'))) /\
    (existsb counters_unavailable_alert evs = false ->
     existsb exception_alert evs = false ->
     List.length (time_values st') = List.length (bw_values st')) /\
    (List.length (time_values st') = List.length (bw_values st') \/
     List.length (time_values st') = S (List.length (bw_values st'))).
Proof.
  unfold monitor_network_traffic. unfold bind at 1. unfold new_lists at 1.
  destruct (Qle_bool interval 0).
  { cbn. intros Hr. inversion Hr; subst; clear Hr. split; [reflexivity|].
    cbn. eexists. split; [reflexivity|]. cbn.
    repeat split; auto; discriminate. }
  unfold bind at 1. unfold call at 1. cbn [world].
  destruct (net_io_counters (world st)) as [w1 [stats|e]]; [|discriminate].
  cbn [log time_values bw_values tcp_values udp_values icmp_values].
  destruct (dict_get interface stats) as [initial_stats|].
  - unfold bind at 1. unfold call at 1. cbn [world].
    destruct (time_time w1) as [w2 [t0|e]]; [|discriminate].
    cbn [log time_values bw_values tcp_values udp_values icmp_values].
    unfold bind at 1. unfold logging_info at 1, emit at 1.
    cbn [world log time_values bw_values tcp_values udp_values icmp_values].
    unfold bind at 1. unfold try_except.
    match goal with
    | |- context [while_loop _ _ _ _ _ _ _ _ ?s] =>
        pose proof (while_loop_balance interface duration interval
                      force_monitor t0 fuel (bytes_sent initial_stats)
                      (bytes_recv initial_stats) s eq_refl) as Hpost;
        destruct (while_loop interface duration interval force_monitor t0
                    fuel (bytes_sent initial_stats)
                    (bytes_recv initial_stats) s) as [st1 [[]|e|]]
    end; cbn in Hpost; destruct Hpost as (evs & Hlog & Hexc & Hbal);
      [| |discriminate].
    + unfold the_lists. intros Hr. inversion Hr; subst; clear Hr.
      split; [reflexivity|].
      exists (Info (MonitoringStarted interface) :: evs).
      rewrite Hlog, <- app_assoc. split; [reflexivity|].
      unfold balance in Hbal. cbn [existsb counters_unavailable_alert orb].
      cbn [exception_alert]. rewrite Hexc.
      destruct (existsb counters_unavailable_alert evs).
      * repeat split; auto; discriminate.
      * destruct Hbal as [Heq|[? ?]]; [|discriminate].
        repeat split; auto; discriminate.
    + assert (Hh : handler e st1
                   = (add_log st1 [Warning (alert_of e)], Ok tt))
        by (destruct e; reflexivity).
      rewrite Hh. unfold the_lists. intros Hr. inversion Hr; subst; clear Hr.
      split; [reflexivity|].
      exists (Info (MonitoringStarted interface) :: evs
              ++ [Warning (alert_of e)]).
      cbn [add_log log time_values bw_values]. rewrite Hlog.
      split; [now rewrite <- !app_assoc|].
      unfold balance in Hbal.
      cbn [existsb counters_unavailable_alert exception_alert orb].
      rewrite !existsb_app.
      assert (Hcu : existsb counters_unavailable_alert
                      [Warning (alert_of e)] = false)
        by (destruct e; reflexivity).
      assert (Hex : existsb exception_alert [Warning (alert_of e)] = true)
        by (destruct e; reflexivity).
      rewrite Hcu, Hex, orb_false_r, orb_true_r.
      destruct (existsb counters_unavailable_alert evs).
      * repeat split; auto; discriminate.
      * repeat split; try discriminate. tauto.
  - unfold_prog. cbn.
    destruct (net_io_counters w1) as [w2 [current|e]]; cbn;
      [|discriminate].
    destruct (list_in "lo" (dict_keys current)); cbn;
      intros Hr; inversion Hr; subst; clear Hr; (split; [reflexivity|]);
      cbn; give_events; cbn; repeat split; auto; discriminate.
Qed.

(** *** Selection of the active interface *)



Lemma filter_not_in (x : string) (l : list string) :
  ~ In x l -> filter (fun y => negb (String.eqb x y)) l = l.
Proof.
  induction l as [|y l IH]; intros Hnin; [reflexivity|]. cbn.
  destruct (String.eqb_spec x y) as [->|Hne].
  - exfalso. apply Hnin. now left.
  - cbn. f_equal. apply IH. intros Hin. apply Hnin. now right.
Qed.

Lemma list_in_false (x : string) (l : list string) :
  list_in x l = false -> ~ In x l.
Proof.
  unfold list_in. intros Hex Hin.
  assert (existsb (String.eqb x) l = true); [|congruence].
  apply existsb_exists. exists x. split; [exact Hin|apply String.eqb_refl].
Qed.

Lemma list_remove_filter (x : string) (l : list string) :
  NoDup l -> list_remove x l = filter (fun y => negb (String.eqb x y)) l.
Proof.
  induction 1 as [|y l Hnin Hnd IH]; [reflexivity|]. cbn.
  destruct (String.eqb_spec x y) as [->|Hne]; cbn.
  - symmetry. now apply filter_not_in.
  - now f_equal.
Qed.

Lemma listed_interfaces_filter (counters : dict snetio) :
  dict_wf counters ->
  listed_interfaces counters
  = filter (fun y => negb (String.eqb "lo" y)) (dict_keys counters).
Proof.
  intros Hwf. unfold listed_interfaces.
  destruct (list_in "lo" (dict_keys counters)) eqn:Hin.
  - now apply list_remove_filter.
  - symmetry. apply filter_not_in. now apply list_in_false.
Qed.







(** ** Further properties of the code *)

(** *** Listing and selecting interfaces *)

Lemma filter_loopback_out (l : list string) :
  ~ In "lo" (filter (fun y => negb (String.eqb "lo" y)) l).
Proof.
  intros Hin. apply filter_In in Hin. destruct Hin as [_ Hneq].
  now rewrite String.eqb_refl in Hneq.
Qed.

(** X1.  When the host answers the counters query with a dict,
    [get_available_interfaces] makes that one query, writes nothing, and
    returns the names of the dict in the host's order without the loopback:
    ["lo"] is never in the list, every other name is, once. *)
Theorem get_available_interfaces_without_loopback (st : State W) (w : W)
  (counters : dict snetio) :
  dict_wf counters ->
  net_io_counters (world st) = (w, Returns counters) ->
  exists names,
    get_available_interfaces st = (set_world st w, Ok names) /\
    names = filter (fun y => negb (String.eqb "lo" y)) (dict_keys counters) /\
    ~ In "lo" names /\
    NoDup names /\
    (forall x, In x names <-> In x (dict_keys counters) /\ x <> "lo").
Proof.
  intros Hwf Hq. exists (listed_interfaces counters).
  rewrite (get_available_interfaces_returns _ Hq).
  rewrite (listed_interfaces_filter Hwf).
  split; [reflexivity|]. split; [reflexivity|].
  split; [apply filter_loopback_out|].
  split; [apply NoDup_filter; exact Hwf|].
  intros x. rewrite filter_In. split.
  - intros [Hin Hneq]. split; [exact Hin|]. intros ->.
    now rewrite String.eqb_refl in Hneq.
  - intros [Hin Hneq]. split; [exact Hin|].
    destruct (String.eqb_spec "lo" x) as [<-|]; [contradiction|reflexivity].
Qed.

(** What the [for] loop of [auto_select_interface] has done when it ends,
    on any host. *)
Lemma auto_select_loop_found : forall available (st st' : State W) found,
  auto_select_loop available st = (st', Ok found) ->
  lists_of st' = lists_of st /\
  match found with
  | Some name =>
      In name available /\
      log st' = log st ++ [Info (InterfaceActive name)] /\
      exists w w' counters stats,
        net_io_counters w = (w', Returns counters) /\
        dict_get name counters = Some stats /\
        ((0 < bytes_sent stats)%N \/ (0 < bytes_recv stats)%N)
  | None => log st' = log st
  end.
Proof.
  induction available as [|interface rest IH]; intros st st' found Hloop.
  - cbn in Hloop. inversion Hloop; subst. now split.
  - cbn [auto_select_loop] in Hloop. unfold bind at 1 in Hloop.
    unfold call at 1 in Hloop.
    destruct (net_io_counters (world st)) as [w1 [counters|e]] eqn:Hq;
      [|discriminate].
    assert (Hrest : forall found',
              auto_select_loop rest (set_world st w1) = (st', Ok found') ->
              lists_of st' = lists_of st /\
              match found' with
              | Some name =>
                  In name (interface :: rest) /\
                  log st' = log st ++ [Info (InterfaceActive name)] /\
                  exists w w' counters stats,
                    net_io_counters w = (w', Returns counters) /\
                    dict_get name counters = Some stats /\
                    ((0 < bytes_sent stats)%N \/ (0 < bytes_recv stats)%N)
              | None => log st' = log st
              end).
    { intros found' Hr. destruct (IH _ _ _ Hr) as [Hl Hf].
      split; [exact Hl|]. destruct found' as [name|]; [|exact Hf].
      destruct Hf as (Hin & Hlog & Hact). repeat split; auto. now right. }
    destruct (dict_get interface counters) as [stats|] eqn:Hget;
      [|now apply Hrest].
    destruct ((0 <? bytes_sent stats)%N || (0 <? bytes_recv stats)%N)
      eqn:Hact; [|now apply Hrest].
    cbn in Hloop. inversion Hloop; subst; clear Hloop. cbn.
    split; [reflexivity|]. split; [now left|]. split; [reflexivity|].
    exists (world st), w1, counters, stats. repeat split; auto.
    apply orb_true_iff in Hact. now rewrite !N.ltb_lt in Hact.
Qed.

(** The queries the [for] loop has made when it ends, on any host: one for
    each interface it passed over, in order, and, when it returns a name,
    one more, whose answer showed that interface active and after which the
    host was asked nothing else. *)
Lemma auto_select_loop_trace : forall available (st st' : State W) found,
  auto_select_loop available st = (st', Ok found) ->
  match found with
  | Some name =>
      exists before after wq counters stats,
        available = before ++ name :: after /\
        passed_over before (world st) wq /\
        net_io_counters wq = (world st', Returns counters) /\
        dict_get name counters = Some stats /\
        ((0 < bytes_sent stats)%N \/ (0 < bytes_recv stats)%N)
  | None => passed_over available (world st) (world st')
  end.
Proof.
  induction available as [|interface rest IH]; intros st st' found Hloop.
  - cbn in Hloop. inversion Hloop; subst. reflexivity.
  - cbn [auto_select_loop] in Hloop. unfold bind at 1 in Hloop.
    unfold call at 1 in Hloop.
    destruct (net_io_counters (world st)) as [w1 [counters|e]] eqn:Hq;
      [|discriminate].
    assert (Hrest : match dict_get interface counters with
                    | Some stats =>
                        (bytes_sent stats = 0 /\ bytes_recv stats = 0)%N
                    | None => True
                    end ->
              forall found',
              auto_select_loop rest (set_world st w1) = (st', Ok found') ->
              match found' with
              | Some name =>
                  exists before after wq counters stats,
                    interface :: rest = before ++ name :: after /\
                    passed_over before (world st) wq /\
                    net_io_counters wq = (world st', Returns counters) /\
                    dict_get name counters = Some stats /\
                    ((0 < bytes_sent stats)%N \/ (0 < bytes_recv stats)%N)
              | None => passed_over (interface :: rest) (world st) (world st')
              end).
    { intros Hidle found' Hr. specialize (IH _ _ _ Hr).
      destruct found' as [name|].
      - destruct IH as (before & after & wq & c & stats & Heq & Hpass & Hact).
        exists (interface :: before), after, wq, c, stats.
        split; [cbn; now rewrite Heq|]. split; [|exact Hact].
        cbn [passed_over]. exists w1, counters. auto.
      - cbn [passed_over]. exists w1, counters. auto. }
    destruct (dict_get interface counters) as [stats|] eqn:Hget;
      [|now apply Hrest].
    destruct ((0 <? bytes_sent stats)%N || (0 <? bytes_recv stats)%N)
      eqn:Hact.
    + cbn in Hloop. inversion Hloop; subst; clear Hloop. cbn.
      exists [], rest, (world st), counters, stats.
      split; [reflexivity|]. split; [reflexivity|]. split; [exact Hq|].
      split; [exact Hget|].
      apply orb_true_iff in Hact. now rewrite !N.ltb_lt in Hact.
    + apply Hrest; [|exact Hloop].
      apply orb_false_iff in Hact. rewrite !N.ltb_ge in Hact. lia.
Qed.

(** X2.  On any host, also one whose counters change from one query to the
    next.  When [auto_select_interface] returns a name: the name is one the
    first counters query listed and is not the loopback; every interface
    listed before it was passed over, each on the answer to a counters
    query of its own, made in the order of the list; the query made next,
    for the name itself, showed a positive sent or received byte count for
    it; the host was asked nothing after that query; and the only thing
    written is that the interface is active.  When it returns [None]: every
    listed interface was passed over in this way, and the only thing
    written is the warning that no interface is active.  The lists of a
    session are not touched. *)
Theorem auto_select_interface_sound (st st' : State W) (w1 : W)
  (counters : dict snetio) (found : option string) :
  dict_wf counters ->
  net_io_counters (world st) = (w1, Returns counters) ->
  auto_select_interface st = (st', Ok found) ->
  lists_of st' = lists_of st /\
  match found with
  | Some name =>
      In name (dict_keys counters) /\ name <> "lo" /\
      log st' = log st ++ [Info (InterfaceActive name)] /\
      exists before after wq current stats,
        listed_interfaces counters = before ++ name :: after /\
        passed_over before w1 wq /\
        net_io_counters wq = (world st', Returns current) /\
        dict_get name current = Some stats /\
        ((0 < bytes_sent stats)%N \/ (0 < bytes_recv stats)%N)
  | None =>
      log st' = log st ++ [Warning AlertNoActiveInterface] /\
      passed_over (listed_interfaces counters) w1 (world st')
  end.
Proof.
  intros Hwf Hq Hsel. unfold auto_select_interface in Hsel.
  unfold bind at 1 in Hsel.
  rewrite (get_available_interfaces_returns _ Hq) in Hsel.
  unfold bind at 1 in Hsel.
  destruct (auto_select_loop _ (set_world st w1)) as [st1 [[name|]|e|]]
    eqn:Hloop; try discriminate.
  - cbn in Hsel. inversion Hsel; subst; clear Hsel.
    destruct (auto_select_loop_found _ _ Hloop) as (Hl & Hin & Hlog & _).
    pose proof (auto_select_loop_trace _ _ Hloop) as Htrace.
    split; [exact Hl|].
    rewrite (listed_interfaces_filter Hwf) in Hin.
    apply filter_In in Hin. destruct Hin as [Hin Hneq].
    split; [exact Hin|].
    split; [intros ->; now rewrite String.eqb_refl in Hneq|].
    split; [exact Hlog|]. exact Htrace.
  - cbn in Hsel. inversion Hsel; subst; clear Hsel.
    destruct (auto_select_loop_found _ _ Hloop) as (Hl & Hlog).
    pose proof (auto_select_loop_trace _ _ Hloop) as Htrace.
    cbn. split; [exact Hl|]. split; [now rewrite Hlog|exact Htrace].
Qed.

(** *** Ways a session ends *)

(** X3.  Whatever [force_monitor] is: when, after [n] complete ticks and
    with the duration not yet over, the host's status table has no entry for
    the interface, the function warns that the status is not available, logs
    the names the host reports now, and returns normally the lists of the
    [n] ticks, each of [n] elements. *)
Theorem monitor_status_unavailable (interface : string)
  (duration interval : Q) (force_monitor : bool) (n fuel : nat)
  (st stn : State W) (start_time : Q) (sent recv : N) (w1 w2 w3 : W)
  (now : Q) (if_stats : dict snicstats) (current : dict snetio) :
  (0 < interval)%Q ->
  after_ticks interface duration interval force_monitor n st
  = Some (stn, start_time, sent, recv) ->
  time_time (world stn) = (w1, Returns now) ->
  (now - start_time < duration)%Q ->
  net_if_stats w1 = (w2, Returns if_stats) ->
  dict_get interface if_stats = None ->
  net_io_counters w2 = (w3, Returns current) ->
  monitor_network_traffic interface duration interval force_monitor
    (n + S fuel) st
  = (add_log (set_world stn w3)
       [Warning (AlertStatusUnavailable interface);
        Info (AvailableInterfaces (listed_interfaces current))],
     Ok (lists_of stn))
  /\ level n stn.
Proof.
  intros Hpos Hafter Hclock Hlt Hstat Hget Hio.
  split; [|eapply after_ticks_level; eauto].
  erewrite monitor_after_ticks by eauto.
  assert (Hit : iteration interface duration interval force_monitor
                  start_time sent recv stn
                = (add_log (set_world stn w3)
                     [Warning (AlertStatusUnavailable interface);
                      Info (AvailableInterfaces (listed_interfaces current))],
                   Ok Leave)).
  { unfold iteration. unfold bind at 1. unfold call at 1. rewrite Hclock.
    rewrite (Qltb_true Hlt). unfold bind at 1. unfold call at 1.
    cbn [world]. rewrite Hstat, Hget.
    unfold bind at 1. unfold send_alert at 1, emit at 1.
    unfold bind at 1.
    erewrite get_available_interfaces_returns by (cbn [world]; exact Hio).
    unfold bind, logging_info, emit, ret, set_world, add_log. cbn.
    now rewrite <- app_assoc. }
  now erewrite sampling_leaves by exact Hit.
Qed.

(** X4.  When, after [n] complete ticks, a pass gets as far as the counters
    query (duration not over, status found, link up or monitoring forced)
    and the counters dict has no entry for the interface, the function
    warns, logs the names the host reports now and returns normally: the
    time list has the [n] values of the ticks and the rounded elapsed time
    of this pass, the four other lists have [n] values. *)
Theorem monitor_counters_unavailable (interface : string)
  (duration interval : Q) (force_monitor : bool) (n fuel : nat)
  (st stn : State W) (start_time : Q) (sent recv : N) (w1 w2 w3 w4 : W)
  (now : Q) (if_stats : dict snicstats) (interface_stats : snicstats)
  (counters current : dict snetio) :
  (0 < interval)%Q ->
  after_ticks interface duration interval force_monitor n st
  = Some (stn, start_time, sent, recv) ->
  time_time (world stn) = (w1, Returns now) ->
  (now - start_time < duration)%Q ->
  net_if_stats w1 = (w2, Returns if_stats) ->
  dict_get interface if_stats = Some interface_stats ->
  isup interface_stats = true \/ force_monitor = true ->
  net_io_counters w2 = (w3, Returns counters) ->
  dict_get interface counters = None ->
  net_io_counters w3 = (w4, Returns current) ->
  monitor_network_traffic interface duration interval force_monitor
    (n + S fuel) st
  = (mkState w4
       (log stn ++ [Warning (AlertCountersUnavailable interface);
                    Info (AvailableInterfaces (listed_interfaces current))])
       (time_values stn ++ [py_round1 (now - start_time)]) (bw_values stn)
       (tcp_values stn) (udp_values stn) (icmp_values stn),
     Ok (time_values stn ++ [py_round1 (now - start_time)], bw_values stn,
         tcp_values stn, udp_values stn, icmp_values stn))
  /\ level n stn.
Proof.
  intros Hpos Hafter Hclock Hlt Hstat Hget Hup Hio Hnone Hio2.
  split; [|eapply after_ticks_level; eauto].
  erewrite monitor_after_ticks by eauto.
  assert (Hgo : negb (isup interface_stats) && negb force_monitor = false).
  { destruct Hup as [-> | ->]; [reflexivity|apply andb_false_r]. }
  assert (Hit : iteration interface duration interval force_monitor
                  start_time sent recv stn
                = (mkState w4
                     (log stn
                      ++ [Warning (AlertCountersUnavailable interface);
                          Info (AvailableInterfaces
                                  (listed_interfaces current))])
                     (time_values stn ++ [py_round1 (now - start_time)])
                     (bw_values stn) (tcp_values stn) (udp_values stn)
                     (icmp_values stn),
                   Ok Leave)).
  { unfold iteration. unfold bind at 1. unfold call at 1. rewrite Hclock.
    rewrite (Qltb_true Hlt). unfold bind at 1. unfold call at 1.
    cbn [world]. rewrite Hstat, Hget, Hgo.
    unfold bind at 1. unfold time_values_append at 1.
    unfold bind at 1. unfold call at 1. cbn [world]. rewrite Hio, Hnone.
    unfold bind at 1. unfold send_alert at 1, emit at 1.
    unfold bind at 1.
    erewrite get_available_interfaces_returns by (cbn [world]; exact Hio2).
    unfold bind, logging_info, emit, ret, set_world. cbn.
    now rewrite <- app_assoc. }
  now erewrite sampling_leaves by exact Hit.
Qed.

(** In a pass that ends in the next one nothing but debug lines is
    written. *)
Lemma iteration_next_quiet interface duration interval force_monitor
  start_time sent recv (st st' : State W) sent' recv' :
  iteration interface duration interval force_monitor start_time sent recv st
  = (st', Ok (Next sent' recv')) ->
  exists evs, log st' = log st ++ evs /\ existsb is_warning evs = false.
Proof.
  intros Hit. iteration_cases Hit st. give_events. reflexivity.
Qed.

Lemma run_iters_quiet interface duration interval force_monitor start_time
  n : forall sent recv (st stn : State W) sentn recvn,
  run_iters interface duration interval force_monitor start_time n sent recv
    st = Some (stn, sentn, recvn) ->
  exists evs, log stn = log st ++ evs /\ existsb is_warning evs = false.
Proof.
  induction n as [|n IH]; intros sent recv st stn sentn recvn Hn.
  - cbn in Hn. inversion Hn; subst. exists []. now rewrite app_nil_r.
  - cbn [run_iters] in Hn.
    destruct (iteration _ _ _ _ _ _ _ st) as [st1 [[s1 r1|]|e|]] eqn:Hit;
      try discriminate.
    destruct (iteration_next_quiet _ _ _ _ _ _ _ _ Hit) as (evs1 & Hl1 & Hq1).
    destruct (IH _ _ _ _ _ _ Hn) as (evs2 & Hl2 & Hq2).
    exists (evs1 ++ evs2). rewrite Hl2, Hl1, app_assoc.
    split; [reflexivity|]. now rewrite existsb_app, Hq1, Hq2.
Qed.

(** X5.  When, after [n] complete ticks, the clock shows that the duration
    is over, the function reads nothing more from the host and returns the
    lists of the [n] ticks, each of [n] elements; since its start it has
    written the start message and debug lines, and no warning. *)
Theorem monitor_duration_over (interface : string) (duration interval : Q)
  (force_monitor : bool) (n fuel : nat) (st stn : State W) (start_time : Q)
  (sent recv : N) (w1 : W) (now : Q) :
  (0 < interval)%Q ->
  after_ticks interface duration interval force_monitor n st
  = Some (stn, start_time, sent, recv) ->
  time_time (world stn) = (w1, Returns now) ->
  (duration <= now - start_time)%Q ->
  monitor_network_traffic interface duration interval force_monitor
    (n + S fuel) st
  = (set_world stn w1, Ok (lists_of stn))
  /\ level n stn
  /\ exists evs, log stn = log st ++ evs /\ existsb is_warning evs = false.
Proof.
  intros Hpos Hafter Hclock Hle.
  split; [|split; [eapply after_ticks_level; eauto|]].
  - erewrite monitor_after_ticks by eauto.
    assert (Hit : iteration interface duration interval force_monitor
                    start_time sent recv stn = (set_world stn w1, Ok Leave)).
    { unfold iteration. unfold bind at 1. unfold call at 1. rewrite Hclock.
      now rewrite (Qltb_false Hle). }
    now erewrite sampling_leaves by exact Hit.
  - unfold after_ticks in Hafter.
    destruct (loop_entry interface st) as [[[[st0 t0] s0] r0]|] eqn:Hent;
      [|discriminate].
    destruct (run_iters _ _ _ _ _ _ _ _ st0) as [[[st1 s1] r1]|] eqn:Hn;
      [|discriminate].
    inversion Hafter; subst; clear Hafter.
    destruct (run_iters_quiet _ _ _ _ _ _ _ _ _ Hn) as (evs & Hl & Hq).
    exists (Info (MonitoringStarted interface) :: evs).
    rewrite Hl, (entry_log _ _ Hent), <- app_assoc.
    split; [reflexivity|]. exact Hq.
Qed.

(** *** A complete tick *)

Lemma no_icmp_flags (if_stats : dict snicstats) :
  Forall (fun s => flags s <> "icmp") (dict_values if_stats) ->
  List.length (filter icmp_in (dict_values if_stats)) = 0%nat.
Proof.
  induction 1 as [|s l Hs Hl IH]; [reflexivity|]. cbn [filter].
  unfold icmp_in at 1. destruct (String.eqb_spec "icmp" (flags s)) as [E|_].
  - now contradiction Hs.
  - exact IH.
Qed.

(** X6.  A pass of the loop in which the duration is not over, the status
    entry is found, the link is up or monitoring is forced, and every host
    query answers, adds exactly one element to each list: the elapsed time
    rounded to one decimal, the sum of the two rates, the number of TCP
    connections of the whole host, the number of UDP connections, and the
    number of interfaces whose [flags] field is the string ["icmp"], which
    is 0 when no interface has such a field.  It then sleeps and goes on
    with the counters just read.  A down link does not stop a forced
    session. *)
Theorem iteration_complete_tick (interface : string) (duration interval : Q)
  (force_monitor : bool) (start_time : Q) (sent recv : N) (st : State W)
  (w1 w2 w3 w4 w5 w6 w7 : W) (now : Q) (if_stats icmp_stats : dict snicstats)
  (interface_stats : snicstats) (counters : dict snetio)
  (current_stats : snetio) (tcp_stats udp_stats : list sconn) :
  time_time (world st) = (w1, Returns now) ->
  (now - start_time < duration)%Q ->
  net_if_stats w1 = (w2, Returns if_stats) ->
  dict_get interface if_stats = Some interface_stats ->
  isup interface_stats = true \/ force_monitor = true ->
  net_io_counters w2 = (w3, Returns counters) ->
  dict_get interface counters = Some current_stats ->
  net_connections kind_tcp w3 = (w4, Returns tcp_stats) ->
  net_connections kind_udp w4 = (w5, Returns udp_stats) ->
  net_if_stats w5 = (w6, Returns icmp_stats) ->
  time_sleep interval w6 = (w7, Returns tt) ->
  exists st',
    iteration interface duration interval force_monitor start_time sent recv
      st
    = (st', Ok (Next (bytes_sent current_stats) (bytes_recv current_stats)))
    /\ world st' = w7
    /\ time_values st' = time_values st ++ [py_round1 (now - start_time)]
    /\ bw_values st'
       = bw_values st
         ++ [(bandwidth (bytes_sent current_stats) sent interval
              + bandwidth (bytes_recv current_stats) recv interval)%Q]
    /\ tcp_values st' = tcp_values st ++ [List.length tcp_stats]
    /\ udp_values st' = udp_values st ++ [List.length udp_stats]
    /\ icmp_values st'
       = icmp_values st
         ++ [List.length (filter icmp_in (dict_values icmp_stats))]
    /\ (Forall (fun s => flags s <> "icmp") (dict_values icmp_stats) ->
        icmp_values st' = icmp_values st ++ [0%nat]).
Proof.
  intros Hclock Hlt Hstat Hget Hup Hio Hcur Htcp Hudp Hicmp Hsleep.
  assert (Hgo : negb (isup interface_stats) && negb force_monitor = false).
  { destruct Hup as [-> | ->]; [reflexivity|apply andb_false_r]. }
  eexists. split.
  - unfold_prog. rewrite Hclock. cbn. rewrite (Qltb_true Hlt). cbn.
    rewrite Hstat. cbn. rewrite Hget, Hgo. cbn. rewrite Hio. cbn.
    rewrite Hcur. cbn. rewrite Htcp. cbn. rewrite Hudp. cbn.
    rewrite Hicmp. cbn. rewrite Hsleep. cbn. reflexivity.
  - cbn. repeat split; try reflexivity.
    intros Hno. now rewrite (no_icmp_flags _ Hno).
Qed.

(** *** What holds of every session *)

(** A property that every pass keeps while the loop goes on, and that gives
    [P] when a pass leaves the loop or raises, gives [P] when the loop is
    over, however it ends. *)
Lemma while_loop_invariant (Inv P : State W -> Prop) interface duration
  interval force_monitor start_time :
  (forall st, Inv st -> P st) ->
  (forall sent recv st st' res,
     Inv st ->
     iteration interface duration interval force_monitor start_time sent recv
       st = (st', res) ->
     match res with
     | Ok (Next _ _) => Inv st'
     | _ => P st'
     end) ->
  forall fuel sent recv st st' res,
    Inv st ->
    while_loop interface duration interval force_monitor start_time fuel sent
      recv st = (st', res) ->
    P st'.
Proof.
  intros Hweak Hstep. induction fuel as [|fuel IH];
    intros sent recv st st' res Hinv Hloop.
  - cbn in Hloop. inversion Hloop; subst. now apply Hweak.
  - rewrite while_loop_step in Hloop.
    destruct (iteration _ _ _ _ _ sent recv st) as [st1 r1] eqn:Hit.
    specialize (Hstep _ _ _ _ _ Hinv Hit).
    destruct r1 as [[s1 r1|]|e|]; cbn in Hstep.
    + exact (IH _ _ _ _ _ Hstep Hloop).
    + inversion Hloop; subst. exact Hstep.
    + inversion Hloop; subst. exact Hstep.
    + inversion Hloop; subst. exact Hstep.
Qed.

(** The function ends before its loop, with its lists empty, or it runs the
    loop from the entry state and then, when the loop has raised, writes
    the alert of the [except] clause. *)
Lemma monitor_cases interface duration interval force_monitor fuel
  (st st' : State W) (res : outcome Samples) :
  monitor_network_traffic interface duration interval force_monitor fuel st
  = (st', res) ->
  (lists_of st' = no_samples /\
   (forall r, res = Ok r -> r = no_samples) /\
   exists evs, log st' = log st ++ evs /\ forallb early_event evs = true) \/
  (exists st0 start_time sent0 recv0 st1 res1,
     loop_entry interface st = Some (st0, start_time, sent0, recv0) /\
     while_loop interface duration interval force_monitor start_time fuel
       sent0 recv0 st0 = (st1, res1) /\
     match res1 with
     | Ok _ => st' = st1 /\ res = Ok (lists_of st1)
     | Raise e =>
         st' = add_log st1 [Warning (alert_of e)] /\ res = Ok (lists_of st1)
     | OutOfFuel => st' = st1 /\ res = OutOfFuel
     end).
Proof.
  unfold monitor_network_traffic, loop_entry.
  unfold bind at 1. unfold new_lists at 1.
  destruct (Qle_bool interval 0).
  { cbn. intros Hr. inversion Hr; subst; clear Hr. left.
    split; [reflexivity|]. split; [now intros r [= <-]|].
    cbn. eexists. split; reflexivity. }
  unfold bind at 1. unfold call at 1. cbn [world].
  destruct (net_io_counters (world st)) as [w1 [stats|e]].
  2:{ intros Hr. inversion Hr; subst; clear Hr. left.
      split; [reflexivity|]. split; [discriminate|].
      cbn. exists []. now rewrite app_nil_r. }
  cbn [log time_values bw_values tcp_values udp_values icmp_values].
  destruct (dict_get interface stats) as [initial_stats|].
  - unfold bind at 1. unfold call at 1. cbn [world].
    destruct (time_time w1) as [w2 [t0|e]].
    2:{ intros Hr. inversion Hr; subst; clear Hr. left.
        split; [reflexivity|]. split; [discriminate|].
        cbn. exists []. now rewrite app_nil_r. }
    cbn [log time_values bw_values tcp_values udp_values icmp_values].
    unfold bind at 1. unfold logging_info at 1, emit at 1.
    cbn [world log time_values bw_values tcp_values udp_values icmp_values].
    unfold bind at 1. unfold try_except.
    intros Hr. right.
    match type of Hr with
    | context [while_loop _ _ _ _ _ _ _ _ ?s] =>
        exists s, t0, (bytes_sent initial_stats), (bytes_recv initial_stats);
        destruct (while_loop interface duration interval force_monitor t0
                    fuel (bytes_sent initial_stats)
                    (bytes_recv initial_stats) s) as [st1 res1]
    end.
    exists st1, res1. split; [reflexivity|]. split; [reflexivity|].
    destruct res1 as [[]|e|].
    + unfold the_lists in Hr. inversion Hr; subst. now split.
    + assert (Hh : handler e st1
                   = (add_log st1 [Warning (alert_of e)], Ok tt))
        by (destruct e; reflexivity).
      rewrite Hh in Hr. unfold the_lists in Hr. inversion Hr; subst.
      now split.
    + inversion Hr; subst. now split.
  - unfold_prog. cbn.
    destruct (net_io_counters w1) as [w2 [current|e]]; cbn.
    + destruct (list_in "lo" (dict_keys current)); cbn;
        intros Hr; inversion Hr; subst; clear Hr; left;
        (split; [reflexivity|]); (split; [now intros r [= <-]|]);
        cbn; give_events; reflexivity.
    + intros Hr; inversion Hr; subst; clear Hr; left.
      split; [reflexivity|]. split; [discriminate|].
      cbn; give_events; reflexivity.
Qed.

Lemma aligned_staggered (st : State W) : aligned st -> staggered st.
Proof. unfold aligned, staggered. lia. Qed.

Lemma iteration_staggered interface duration interval force_monitor
  start_time sent recv (st st' : State W) res :
  aligned st ->
  iteration interface duration interval force_monitor start_time sent recv st
  = (st', res) ->
  match res with
  | Ok (Next _ _) => aligned st'
  | _ => staggered st'
  end.
Proof.
  intros Hal Hit. unfold aligned, staggered in *.
  iteration_cases Hit st; cbn in Hal; rewrite ?length_app; cbn; lia.
Qed.

Lemma staggered_ordered (st : State W) : staggered st -> ordered_lengths st.
Proof. unfold staggered, ordered_lengths. lia. Qed.

(** However a call ends, its lists stand as a pass can leave them. *)
Lemma monitor_ends_staggered (interface : string) (duration interval : Q)
  (force_monitor : bool) (fuel : nat) (st st' : State W)
  (res : outcome Samples) :
  monitor_network_traffic interface duration interval force_monitor fuel st
  = (st', res) ->
  staggered st' /\
  (forall r, res = Ok r -> r = lists_of st').
Proof.
  intros Hm. destruct (monitor_cases _ _ _ _ _ _ Hm)
    as [(Hl & Hres & _) | (st0 & t0 & s0 & r0 & st1 & res1 & Hent & Hloop & Hend)].
  - split.
    + unfold lists_of, no_samples in Hl. injection Hl as Ht Hb Hc Hu Hi.
      unfold staggered. rewrite Ht, Hb, Hc, Hu, Hi. cbn. lia.
    + intros r Hr. rewrite Hl. now apply Hres.
  - assert (Hst1 : staggered st1).
    { eapply while_loop_invariant with (Inv := aligned) (P := staggered);
        [ exact aligned_staggered
        | intros; eapply iteration_staggered; eauto
        | | exact Hloop ].
      destruct (entry_level _ _ Hent) as (?&?&?&?&?).
      unfold aligned. lia. }
    destruct res1 as [[]|e|].
    + destruct Hend as [-> ->]. split; [exact Hst1|]. now intros r [= <-].
    + destruct Hend as [-> ->]. split; [exact Hst1|]. now intros r [= <-].
    + destruct Hend as [-> ->]. split; [exact Hst1|]. discriminate.
Qed.

(** X7.  However a call of [monitor_network_traffic] ends, its five lists
    are ordered by length as lines 122, 140, 147, 148 and 149 fill them: the
    ICMP list is no longer than the UDP list, the UDP list no longer than
    the TCP list, the TCP list no longer than the bandwidth list, the
    bandwidth list no longer than the time list, and the time list has at
    most one element more than the ICMP list.  What the call returns is the
    tuple of these lists. *)
Theorem monitor_lists_ordered (interface : string) (duration interval : Q)
  (force_monitor : bool) (fuel : nat) (st st' : State W)
  (res : outcome Samples) :
  monitor_network_traffic interface duration interval force_monitor fuel st
  = (st', res) ->
  ordered_lengths st' /\
  (forall r, res = Ok r -> r = lists_of st').
Proof.
  intros Hm. destruct (monitor_ends_staggered _ _ _ _ _ _ Hm) as [Hst Hres].
  split; [now apply staggered_ordered|exact Hres].
Qed.

Lemma no_link_down_since_trans (st0 st1 st2 : State W) :
  no_link_down_since st0 st1 -> no_link_down_since st1 st2 ->
  no_link_down_since st0 st2.
Proof.
  intros (evs1 & Hl1 & Hq1) (evs2 & Hl2 & Hq2). exists (evs1 ++ evs2).
  rewrite Hl2, Hl1, app_assoc. split; [reflexivity|].
  now rewrite existsb_app, Hq1, Hq2.
Qed.

Lemma no_link_down_since_refl (st : State W) : no_link_down_since st st.
Proof. exists []. now rewrite app_nil_r. Qed.

Lemma iteration_forced_no_link_down interface duration interval start_time
  sent recv (st st' : State W) res :
  iteration interface duration interval true start_time sent recv st
  = (st', res) ->
  no_link_down_since st st'.
Proof.
  intros Hit. unfold no_link_down_since.
  iteration_cases Hit st;
    try (rewrite andb_false_r in *; discriminate);
    give_events; reflexivity.
Qed.

Lemma early_event_not_link_down (evs : list Event) :
  forallb early_event evs = true -> existsb link_down_alert evs = false.
Proof.
  induction evs as [|ev evs IH]; [reflexivity|]. cbn. intros Hall.
  apply andb_true_iff in Hall. destruct Hall as [Hev Hall].
  rewrite (IH Hall), orb_false_r.
  destruct ev as [[]| |]; try reflexivity; discriminate.
Qed.

(** X8.  With [force_monitor] true the warning that the connection was
    interrupted is never written, however the call ends: a down link does
    not end a forced session. *)
Theorem forced_monitor_never_reports_link_down (interface : string)
  (duration interval : Q) (fuel : nat) (st st' : State W)
  (res : outcome Samples) :
  monitor_network_traffic interface duration interval true fuel st
  = (st', res) ->
  exists evs,
    log st' = log st ++ evs /\ existsb link_down_alert evs = false.
Proof.
  intros Hm. destruct (monitor_cases _ _ _ _ _ _ Hm)
    as [(_ & _ & evs & Hlog & Hearly)
       | (st0 & t0 & s0 & r0 & st1 & res1 & Hent & Hloop & Hend)].
  - exists evs. split; [exact Hlog|]. now apply early_event_not_link_down.
  - assert (Hst1 : no_link_down_since st0 st1).
    { eapply while_loop_invariant with (Inv := no_link_down_since st0)
                (P := no_link_down_since st0);
        [ auto
        | | apply no_link_down_since_refl | exact Hloop ].
      intros sent recv sa sb r Hinv Hit.
      assert (Hsb : no_link_down_since st0 sb).
      { eapply no_link_down_since_trans; [exact Hinv|].
        eapply iteration_forced_no_link_down; eauto. }
      destruct r as [[]|?|]; exact Hsb. }
    assert (H0 : no_link_down_since st st0).
    { exists [Info (MonitoringStarted interface)].
      split; [eapply entry_log; eauto|reflexivity]. }
    pose proof (no_link_down_since_trans H0 Hst1) as H1.
    destruct res1 as [[]|e|]; destruct Hend as [-> _]; try exact H1.
    eapply no_link_down_since_trans; [exact H1|].
    exists [Warning (alert_of e)]. split; [reflexivity|].
    destruct e; reflexivity.
Qed.

Lemma Qltb_lt (x y : Q) : Qltb x y = true -> (x < y)%Q.
Proof.
  unfold Qltb. intros Hb. apply negb_true_iff in Hb.
  apply Qnot_le_lt. intros Hle. apply Qle_bool_iff in Hle. congruence.
Qed.

(** X9.  A pass of the loop adds at most one value to the time list, and
    the value is [round(elapsed, 1)] of the very elapsed time the loop
    condition of line 111 tested: the answer [now] of the clock query the
    pass began with, minus the start time, which was found below the
    duration.  A pass that leaves the time list as it was is not followed
    by another pass.  (The rounded value itself can reach the duration.) *)
Theorem iteration_records_tested_time (interface : string)
  (duration interval : Q) (force_monitor : bool) (start_time : Q)
  (sent recv : N) (st st' : State W) (res : outcome ctl) :
  iteration interface duration interval force_monitor start_time sent recv st
  = (st', res) ->
  (time_values st' = time_values st /\
   forall sent' recv', res <> Ok (Next sent' recv')) \/
  (exists w1 now,
     time_time (world st) = (w1, Returns now) /\
     (now - start_time < duration)%Q /\
     time_values st'
     = time_values st ++ [py_round1 (now - start_time)]).
Proof.
  intros Hit.
  iteration_cases Hit st;
    try (left; split; [reflexivity|discriminate]);
    right; do 2 eexists; (split; [eassumption|]);
    (split; [now apply Qltb_lt|reflexivity]).
Qed.

(** *** A call starts afresh *)

Lemma iteration_frame interface duration interval force_monitor start_time
  sent recv w l tv bw tcp udp icmp :
  iteration interface duration interval force_monitor start_time sent recv
    (mkState w l tv bw tcp udp icmp)
  = framed l
      (iteration interface duration interval force_monitor start_time sent
         recv (mkState w [] tv bw tcp udp icmp)).
Proof.
  unfold framed, after_log. unfold_prog. cbn. repeat split_goal;
    rewrite <- ?app_assoc; cbn; rewrite ?app_nil_r; reflexivity.
Qed.

Lemma while_loop_frame interface duration interval force_monitor start_time
  fuel : forall sent recv w l tv bw tcp udp icmp,
  while_loop interface duration interval force_monitor start_time fuel sent
    recv (mkState w l tv bw tcp udp icmp)
  = framed l
      (while_loop interface duration interval force_monitor start_time fuel
         sent recv (mkState w [] tv bw tcp udp icmp)).
Proof.
  induction fuel as [|fuel IH]; intros sent recv w l tv bw tcp udp icmp.
  - cbn. unfold framed, after_log. cbn. now rewrite app_nil_r.
  - rewrite !while_loop_step, iteration_frame.
    destruct (iteration _ _ _ _ _ sent recv (mkState w [] tv bw tcp udp icmp))
      as [[w1 l1 tv1 bw1 tcp1 udp1 icmp1] [[s1 r1|]|e|]];
      unfold framed, after_log; cbn; try reflexivity.
    rewrite (IH s1 r1 w1 (l ++ l1)), (IH s1 r1 w1 l1).
    destruct (while_loop _ _ _ _ _ fuel s1 r1
                (mkState w1 [] tv1 bw1 tcp1 udp1 icmp1)) as [st2 r2].
    unfold framed, after_log. cbn. now rewrite app_assoc.
Qed.

(** X19.  A call of [monitor_network_traffic] reads neither the
    diagnostics written before it nor the lists of an earlier call: from
    the same host state it leaves the host in the same state, ends in the
    same way with the same tuple, and has written the same events after
    the earlier ones, as a call that starts with nothing logged and empty
    lists. *)
Theorem monitor_starts_afresh (interface : string) (duration interval : Q)
  (force_monitor : bool) (fuel : nat) (st st0 : State W)
  (res : outcome Samples) :
  monitor_network_traffic interface duration interval force_monitor fuel
    (mkState (world st) [] [] [] [] [] []) = (st0, res) ->
  monitor_network_traffic interface duration interval force_monitor fuel st
  = (mkState (world st0) (log st ++ log st0) (time_values st0)
       (bw_values st0) (tcp_values st0) (udp_values st0) (icmp_values st0),
     res).
Proof.
  intros Hr.
  unfold monitor_network_traffic, try_except, the_lists, new_lists in *.
  unfold_prog. cbn in *.
  destruct (Qle_bool interval 0); cbn in *.
  { inversion Hr; subst. reflexivity. }
  destruct (net_io_counters (world st)) as [w1 [stats|e]]; cbn in *.
  2:{ inversion Hr; subst; cbn; rewrite ?app_nil_r; reflexivity. }
  destruct (dict_get interface stats) as [initial_stats|]; cbn in *.
  - destruct (time_time w1) as [w2 [t0|e]]; cbn in *.
    2:{ inversion Hr; subst; cbn; rewrite ?app_nil_r; reflexivity. }
    rewrite (while_loop_frame interface duration interval force_monitor t0
               fuel (bytes_sent initial_stats) (bytes_recv initial_stats)
               w2 (log st ++ [Info (MonitoringStarted interface)])).
    rewrite (while_loop_frame interface duration interval force_monitor t0
               fuel (bytes_sent initial_stats) (bytes_recv initial_stats)
               w2 [Info (MonitoringStarted interface)]) in Hr.
    destruct (while_loop _ _ _ _ _ fuel _ _ (mkState w2 [] [] [] [] [] []))
      as [st1 [[]|e|]]; unfold framed, after_log in *; cbn in *;
      try destruct e; cbn in *;
      inversion Hr; subst; cbn; rewrite <- ?app_assoc; reflexivity.
  - destruct (net_io_counters w1) as [w2 [current|e]]; cbn in *;
      try destruct (list_in "lo" (dict_keys current)); cbn in *;
      inversion Hr; subst; cbn; rewrite <- ?app_assoc; reflexivity.
Qed.

(** The two functions that select an interface do not read the log or the
    lists either. *)
Lemma get_available_interfaces_frame w l tv bw tcp udp icmp :
  get_available_interfaces (mkState w l tv bw tcp udp icmp)
  = (let (st', r) := get_available_interfaces (mkState w [] [] [] [] [] [])
     in (mkState (world st') (l ++ log st') tv bw tcp udp icmp, r)).
Proof.
  unfold_prog. cbn. repeat split_goal; rewrite ?app_nil_r; reflexivity.
Qed.

Lemma auto_select_loop_frame : forall available w l tv bw tcp udp icmp,
  auto_select_loop available (mkState w l tv bw tcp udp icmp)
  = (let (st', r) := auto_select_loop available (mkState w [] [] [] [] [] [])
     in (mkState (world st') (l ++ log st') tv bw tcp udp icmp, r)).
Proof.
  induction available as [|interface rest IH];
    intros w l tv bw tcp udp icmp.
  - cbn. now rewrite app_nil_r.
  - cbn [auto_select_loop]. unfold_prog. cbn.
    destruct (net_io_counters w) as [w1 [counters|e]]; cbn;
      [|now rewrite app_nil_r].
    destruct (dict_get interface counters) as [stats|]; [|apply IH].
    destruct ((0 <? bytes_sent stats)%N || (0 <? bytes_recv stats)%N);
      [reflexivity|apply IH].
Qed.

Lemma auto_select_interface_frame w l tv bw tcp udp icmp :
  auto_select_interface (mkState w l tv bw tcp udp icmp)
  = (let (st', r) := auto_select_interface (mkState w [] [] [] [] [] [])
     in (mkState (world st') (l ++ log st') tv bw tcp udp icmp, r)).
Proof.
  unfold auto_select_interface, bind.
  rewrite get_available_interfaces_frame.
  destruct (get_available_interfaces (mkState w [] [] [] [] [] []))
    as [[w1 l1 tv1 bw1 tcp1 udp1 icmp1] [names|e|]] eqn:Hav; cbn;
    try reflexivity.
  assert (Hfresh : l1 = [] /\ tv1 = [] /\ bw1 = [] /\ tcp1 = [] /\
                   udp1 = [] /\ icmp1 = []).
  { unfold get_available_interfaces, bind, call, ret in Hav. cbn in Hav.
    destruct (net_io_counters w) as [w2 [counters|e]]; cbn in Hav;
      [|discriminate].
    destruct (list_in "lo" (dict_keys counters)); inversion Hav; tauto. }
  destruct Hfresh as (-> & -> & -> & -> & -> & ->). rewrite app_nil_r.
  rewrite auto_select_loop_frame.
  destruct (auto_select_loop names (mkState w1 [] [] [] [] [] []))
    as [st2 [[name|]|e|]]; cbn; try reflexivity.
  unfold send_alert, emit, ret. cbn. now rewrite <- app_assoc.
Qed.

End Facts.



(** * Properties of the speed test, the plot and [main] *)

Section Application_facts.

Context {W : Type} `{Host W} `{Speedtest W} `{Pyplot W}.

Ltac unfold_app :=
  unfold abind, aret, measure, draw, record, app_alert, app_info, print,
    sys_exit, try_config, try_exception in *.

(** Split on the next answer of pyplot in [Hr]. *)
Ltac plot_step Hr :=
  match type of Hr with
  | context [pyplot ?c ?w] =>
      let w' := fresh "w" in let e := fresh "e" in let E := fresh "E" in
      destruct (pyplot c w) as [w' [[]|e]] eqn:E; cbn in Hr
  | context [draw_texts ?p ?s] =>
      let s' := fresh "s" in let e := fresh "e" in let E := fresh "E" in
      destruct (draw_texts p s) as [s' [[]|e|]] eqn:E; cbn in Hr
  end.

Lemma Qltb_megabits (x k : Q) :
  Qltb (x / 1000000) k = Qltb x (k * 1000000).
Proof.
  unfold Qltb. f_equal. apply eq_true_iff_eq. rewrite !Qle_bool_iff.
  assert (Hpos : (0 < 1000000)%Q) by reflexivity.
  split; intros Hle.
  - apply (Qmult_le_compat_r _ _ 1000000) in Hle; [|now apply Qlt_le_weak].
    assert (E : (x / 1000000 * 1000000 == x)%Q) by (field; discriminate).
    now rewrite E in Hle.
  - now apply Qle_shift_div_l.
Qed.

(** X11.  When the four calls of the speed test answer,
    [check_internet_speed] returns the download and upload rates divided by
    1000000 and the ping, logs the three values, and warns about the
    download exactly when the measured rate is below 5000000 bit/s and about
    the upload exactly when it is below 1000000 bit/s, in this order. *)
Theorem check_internet_speed_measures (s : AppState W) (w1 w2 w3 w4 : W)
  (bits_down bits_up : Q) :
  Speedtest_init (aworld s) = (w1, Gives tt) ->
  get_best_server w1 = (w2, Gives tt) ->
  download w2 = (w3, Gives bits_down) ->
  upload w3 = (w4, Gives bits_up) ->
  check_internet_speed s
  = (mkApp w4
       (journal s
        ++ [AppInfoLine (DownloadSpeed (bits_down / 1000000));
            AppInfoLine (UploadSpeed (bits_up / 1000000));
            AppInfoLine (PingTime (results_ping w4))]
        ++ (if Qltb bits_down 5000000
            then [AppWarning AlertSlowDownload] else [])
        ++ (if Qltb bits_up 1000000
            then [AppWarning AlertSlowUpload] else [])),
     Done (Some (bits_down / 1000000)%Q, Some (bits_up / 1000000)%Q,
           Some (results_ping w4))).
Proof.
  intros Hinit Hserver Hdown Hup.
  unfold check_internet_speed. unfold_app.
  rewrite Hinit. cbn. rewrite Hserver. cbn. rewrite Hdown. cbn.
  rewrite Hup. cbn.
  rewrite (Qltb_megabits bits_down 5), (Qltb_megabits bits_up 1).
  change (5 * 1000000)%Q with 5000000%Q.
  change (1 * 1000000)%Q with 1000000%Q.
  destruct (Qltb bits_down 5000000), (Qltb bits_up 1000000); cbn;
    rewrite <- ?app_assoc; reflexivity.
Qed.

(** X12.  However [check_internet_speed] ends, it has done one of three
    things: returned three values, after the three info lines and at most
    the two warnings; returned [(None, None, None)] after one warning about
    the configuration and nothing else; or let an exception out having
    written nothing.  It never returns a tuple that is partly [None].  An
    exception of [speedtest.Speedtest()] itself, of whatever class, gets
    out: that call is before the [try]. *)
Theorem check_internet_speed_outcomes (s s' : AppState W)
  (r : aoutcome (option Q * option Q * option Q)) :
  check_internet_speed s = (s', r) ->
  match r with
  | Done (Some d, Some u, Some p) =>
      exists warnings,
        journal s'
        = journal s
          ++ [AppInfoLine (DownloadSpeed d); AppInfoLine (UploadSpeed u);
              AppInfoLine (PingTime p)]
          ++ warnings /\
        (warnings = [] \/ warnings = [AppWarning AlertSlowDownload] \/
         warnings = [AppWarning AlertSlowUpload] \/
         warnings = [AppWarning AlertSlowDownload;
                     AppWarning AlertSlowUpload])
  | Done (None, None, None) =>
      exists msg,
        journal s' = journal s ++ [AppWarning (AlertConfigRetrieval msg)]
  | Done _ => False
  | Raised e => journal s' = journal s
  | Unfinished => False
  end /\
  (forall w e, Speedtest_init (aworld s) = (w, Throws e) -> r = Raised e).
Proof.
  unfold check_internet_speed. unfold_app. intros Hr.
  destruct (Speedtest_init (aworld s)) as [w1 [[]|e1]]; cbn in Hr.
  2:{ inversion Hr; subst. split; [reflexivity|]. now intros w e [= _ <-]. }
  split; [|discriminate].
  destruct (get_best_server w1) as [w2 [[]|e2]]; cbn in Hr.
  2:{ destruct e2; inversion Hr; subst; cbn; eauto. }
  destruct (download w2) as [w3 [d|e3]]; cbn in Hr.
  2:{ destruct e3; inversion Hr; subst; cbn; eauto. }
  destruct (upload w3) as [w4 [u|e4]]; cbn in Hr.
  2:{ destruct e4; inversion Hr; subst; cbn; eauto. }
  destruct (Qltb (d / 1000000) 5), (Qltb (u / 1000000) 1); cbn in Hr;
    inversion Hr; subst; cbn; eexists;
    (split; [rewrite <- ?app_assoc; cbn; reflexivity|]); tauto.
Qed.

(** *** The plot *)

Lemma draw_texts_done : forall points (s s' : AppState W),
  draw_texts points s = (s', Done tt) ->
  journal s' = journal s ++ map text_of points.
Proof.
  induction points as [|[x y] rest IH]; intros s s' Hr.
  - cbn in Hr. inversion Hr; subst. now rewrite app_nil_r.
  - cbn [draw_texts] in Hr. unfold abind at 1, draw at 1 in Hr.
    destruct (pyplot (plt_text x y) (aworld s)) as [w1 [[]|e]];
      [|discriminate].
    rewrite (IH _ _ Hr). cbn. now rewrite <- app_assoc.
Qed.

Lemma draw_texts_raised : forall points (s s' : AppState W) e,
  draw_texts points s = (s', Raised e) ->
  exists evs x y,
    journal s' = journal s ++ evs ++ [Drawn (plt_text x y)] /\
    exists e', e = Plain e'.
Proof.
  induction points as [|[x y] rest IH]; intros s s' e Hr.
  - discriminate.
  - cbn [draw_texts] in Hr. unfold abind at 1, draw at 1 in Hr.
    destruct (pyplot (plt_text x y) (aworld s)) as [w1 [[]|e1]].
    + destruct (IH _ _ _ Hr) as (evs & x' & y' & Hj & He). cbn in Hj.
      exists (Drawn (plt_text x y) :: evs), x', y'.
      split; [|exact He]. rewrite Hj, <- app_assoc. reflexivity.
    + inversion Hr; subst. exists [], x, y. split; [reflexivity|eauto].
Qed.

Lemma draw_texts_finishes : forall points (s s' : AppState W),
  draw_texts points s <> (s', Unfinished).
Proof.
  induction points as [|[x y] rest IH]; intros s s' Hr; [discriminate|].
  cbn [draw_texts] in Hr. unfold abind at 1, draw at 1 in Hr.
  destruct (pyplot (plt_text x y) (aworld s)) as [w1 [[]|e1]];
    [|discriminate].
  exact (IH _ _ Hr).
Qed.

(** X13.  When [plot_network_traffic] returns, it has drawn the four series
    over the time list, one text for each pair of [zip(time_values,
    bw_values)] (as many as the shorter list has), the decorations, and
    last of all has called [plt.show()]; just before that, with a save path
    that is not empty, it has called [plt.savefig] and either logged that
    the plot is saved or, the call having raised an [Exception], warned
    that saving failed; without a save path, or with an empty one, it has
    not called [plt.savefig]. *)
Theorem plot_network_traffic_returns (time_values bw_values : list Q)
  (tcp_values udp_values icmp_values : list nat) (save_path : option string)
  (s s' : AppState W) :
  plot_network_traffic time_values bw_values tcp_values udp_values
    icmp_values save_path s = (s', Done tt) ->
  exists saving,
    journal s'
    = journal s
      ++ drawing time_values bw_values tcp_values udp_values icmp_values
      ++ saving ++ [Drawn plt_show] /\
    List.length (combine time_values bw_values)
    = Nat.min (List.length time_values) (List.length bw_values) /\
    match save_path with
    | Some path =>
        if String.eqb path "" then saving = []
        else saving = [Drawn (plt_savefig path); AppInfoLine (PlotSaved path)]
             \/ exists msg,
                  saving = [Drawn (plt_savefig path);
                            AppWarning (AlertSaveFailed msg)]
    | None => saving = []
    end.
Proof.
  intros Hr. unfold plot_network_traffic in Hr. unfold_app. cbn in Hr.
  do 5 (plot_step Hr; [|discriminate]).
  plot_step Hr; [|discriminate|discriminate].
  apply draw_texts_done in E4. cbn in E4.
  do 6 (plot_step Hr; [|discriminate]).
  unfold drawing.
  destruct save_path as [path|]; cbn in Hr.
  - destruct (String.eqb path "") eqn:Hp; cbn in Hr.
    + plot_step Hr; [|discriminate]. inversion Hr; subst; clear Hr. cbn.
      exists []. rewrite E4, length_combine.
      repeat split. rewrite <- !app_assoc. reflexivity.
    + plot_step Hr.
      * plot_step Hr; [|discriminate]. inversion Hr; subst; clear Hr. cbn.
        exists [Drawn (plt_savefig path); AppInfoLine (PlotSaved path)].
        rewrite E4, length_combine. split; [|split; [reflexivity|]].
        -- rewrite <- !app_assoc. cbn. reflexivity.
        -- now left.
      * destruct e as [|msg]; cbn in Hr; [discriminate|].
        plot_step Hr; [|discriminate]. inversion Hr; subst; clear Hr. cbn.
        exists [Drawn (plt_savefig path); AppWarning (AlertSaveFailed msg)].
        rewrite E4, length_combine. split; [|split; [reflexivity|]].
        -- rewrite <- !app_assoc. cbn. reflexivity.
        -- right. now exists msg.
  - plot_step Hr; [|discriminate]. inversion Hr; subst; clear Hr. cbn.
    exists []. rewrite E4, length_combine.
    repeat split. rewrite <- !app_assoc. reflexivity.
Qed.


Lemma ends_in_one (j : list AppEvent) c : ends_in j (j ++ [Drawn c]) c.
Proof. now exists []. Qed.

Lemma ends_in_more (j l j' : list AppEvent) c :
  ends_in (j ++ l) j' c -> ends_in j j' c.
Proof. intros [evs ->]. exists (l ++ evs). now rewrite <- !app_assoc. Qed.

Lemma stops_aret {X} (x : X) : stops_at_call (aret x : A W X).
Proof.
  intros s s' r Hr. inversion Hr; subst. exists []. now rewrite app_nil_r.
Qed.

Lemma stops_record ev : stops_at_call (record ev : A W unit).
Proof. intros s s' r Hr. inversion Hr; subst. cbn. now exists [ev]. Qed.

Lemma stops_abind {X Y} (c : A W X) (k : X -> A W Y) :
  stops_at_call c -> (forall x, stops_at_call (k x)) ->
  stops_at_call (abind c k).
Proof.
  intros Hc Hk s s' r Hr. unfold abind in Hr.
  destruct (c s) as [s1 [x|e|]] eqn:Hcs; specialize (Hc _ _ _ Hcs);
    cbn in Hc.
  - destruct Hc as [evs1 Hj1]. specialize (Hk x _ _ _ Hr).
    destruct r as [y|e|]; [| |exact Hk].
    + destruct Hk as [evs2 Hj2]. exists (evs1 ++ evs2).
      now rewrite Hj2, Hj1, app_assoc.
    + destruct Hk as (call & e' & Hend & He & Hsave).
      exists call, e'. split; [|now split].
      apply (ends_in_more _ evs1). now rewrite <- Hj1.
  - inversion Hr; subst. exact Hc.
  - contradiction.
Qed.

(** A call other than [plt.savefig]. *)
Lemma stops_draw (c : plt_call) :
  (forall path, c <> plt_savefig path) -> stops_at_call (draw c).
Proof.
  intros Hc s s' r Hr. unfold draw in Hr.
  destruct (pyplot c (aworld s)) as [w1 [[]|e]]; inversion Hr; subst; cbn.
  - now exists [Drawn c].
  - exists c, e. split; [apply ends_in_one|]. split; [reflexivity|].
    intros path Hp. now contradiction (Hc path).
Qed.

Lemma stops_draw_texts points : stops_at_call (draw_texts points).
Proof.
  induction points as [|[x y] rest IH]; cbn [draw_texts].
  - apply stops_aret.
  - apply stops_abind; [apply stops_draw; discriminate|intros _; exact IH].
Qed.

(** Lines 195-200 *)
Lemma stops_saving path :
  stops_at_call
    (try_exception
       (abind (draw (plt_savefig path))
          (fun _ => app_info (PlotSaved path)))
       (fun e => app_alert (AlertSaveFailed e))).
Proof.
  intros s s' r Hr. unfold try_exception, abind, draw, app_info, app_alert,
    record in Hr.
  destruct (pyplot (plt_savefig path) (aworld s)) as [w1 [[]|[|msg]]];
    inversion Hr; subst; cbn.
  - exists [Drawn (plt_savefig path); AppInfoLine (PlotSaved path)].
    now rewrite <- app_assoc.
  - exists (plt_savefig path), KeyboardInterrupt.
    split; [apply ends_in_one|]. now split.
  - exists [Drawn (plt_savefig path); AppWarning (AlertSaveFailed msg)].
    now rewrite <- app_assoc.
Qed.

(** X14.  [plot_network_traffic] always ends.  When an exception leaves it,
    the last thing it did was the call of pyplot that raised; an
    [Exception] raised by [plt.savefig] never leaves it (only an interrupt
    during that call does), so a plot that cannot be saved is still
    shown. *)
Theorem plot_network_traffic_raises (time_values bw_values : list Q)
  (tcp_values udp_values icmp_values : list nat) (save_path : option string)
  (s s' : AppState W) (r : aoutcome unit) :
  plot_network_traffic time_values bw_values tcp_values udp_values
    icmp_values save_path s = (s', r) ->
  match r with
  | Done _ => exists evs, journal s' = journal s ++ evs
  | Raised e =>
      exists call e',
        ends_in (journal s) (journal s') call /\ e = Plain e' /\
        (forall path, call = plt_savefig path -> e' = KeyboardInterrupt)
  | Unfinished => False
  end.
Proof.
  revert s s' r.
  change (stops_at_call
            (plot_network_traffic time_values bw_values tcp_values
               udp_values icmp_values save_path)).
  unfold plot_network_traffic.
  repeat (apply stops_abind; [|intros _]);
    try (apply stops_draw; discriminate).
  - apply stops_draw_texts.
  - destruct save_path as [path|]; [|apply stops_aret].
    destruct (truthy (Some path)); [apply stops_saving|apply stops_aret].
Qed.

(** *** [main] *)

Lemma print_interfaces_done : forall names (s : AppState W),
  print_interfaces names s
  = (mkApp (aworld s) (journal s ++ map listed_line names), Done tt).
Proof.
  induction names as [|name rest IH]; intros s.
  - cbn. rewrite app_nil_r. now destruct s.
  - cbn [print_interfaces]. unfold abind at 1, print at 1, record at 1.
    rewrite IH. cbn. now rewrite <- app_assoc.
Qed.

(** X15.  With [--list], whatever the other arguments: [main] prints the
    heading, asks the host once for its counters, prints one line for each
    interface but the loopback, in the host's order, and leaves through
    [sys.exit(0)]; no interface is selected, no speed test is made, nothing
    is monitored or drawn. *)
Theorem main_lists_interfaces (args : Namespace) (fuel : nat)
  (s : AppState W) (w1 : W) (counters : dict snetio) :
  arg_list args = true ->
  dict_wf counters ->
  net_io_counters (aworld s) = (w1, Returns counters) ->
  main args fuel s
  = (mkApp w1
       (journal s
        ++ Printed "Interfaces disponíveis:"
           :: map listed_line
                (filter (fun y => negb (String.eqb "lo" y))
                   (dict_keys counters))),
     Raised (SystemExit 0)).
Proof.
  intros Hlist Hwf Hq. unfold main. rewrite Hlist.
  unfold abind at 1. unfold abind at 1. unfold print at 1, record at 1.
  unfold abind at 1. unfold lift at 1. cbn [aworld journal].
  erewrite get_available_interfaces_returns by (cbn [world]; exact Hq).
  rewrite (listed_interfaces_filter Hwf).
  cbn [set_world world log map]. rewrite app_nil_r.
  unfold abind at 1. rewrite print_interfaces_done.
  unfold sys_exit. cbn. now rewrite <- app_assoc.
Qed.

Lemma auto_select_none_log (st st' : State W) :
  auto_select_interface st = (st', Ok None) ->
  log st' = log st ++ [Warning AlertNoActiveInterface].
Proof.
  intros Hsel. unfold auto_select_interface in Hsel.
  unfold bind at 1 in Hsel.
  destruct (get_available_interfaces st) as [st0 [names|e|]] eqn:Hav;
    try discriminate.
  assert (Hlog0 : log st0 = log st).
  { unfold get_available_interfaces, bind, call, ret in Hav.
    destruct (net_io_counters (world st)) as [w1 [counters|e]];
      [|discriminate].
    cbn in Hav. destruct (list_in "lo" (dict_keys counters));
      now inversion Hav. }
  unfold bind at 1 in Hsel.
  destruct (auto_select_loop names st0) as [st1 [[name|]|e|]] eqn:Hloop;
    try discriminate.
  cbn in Hsel. inversion Hsel; subst; clear Hsel. cbn.
  destruct (auto_select_loop_found _ _ Hloop) as (_ & Hlog).
  now rewrite Hlog, Hlog0.
Qed.

(** X16.  Without [--list] and without an interface on the command line
    (or with an empty one): when the automatic selection finds no active
    interface, [main] has written two warnings, the one of the selection
    and its own, and leaves through [sys.exit(1)]; no speed test is made
    and nothing is monitored. *)
Theorem main_without_interface (args : Namespace) (fuel : nat)
  (s : AppState W) (st1 : State W) :
  arg_list args = false ->
  truthy (arg_interface args) = false ->
  auto_select_interface (mkState (aworld s) [] [] [] [] [] [])
  = (st1, Ok None) ->
  main args fuel s
  = (mkApp (world st1)
       (journal s
        ++ [Core (Warning AlertNoActiveInterface);
            AppWarning AlertNoInterfaceInSystem]),
     Raised (SystemExit 1)).
Proof.
  intros Hlist Hif Hsel. unfold main. rewrite Hlist, Hif.
  unfold abind at 1. unfold aret at 1.
  unfold abind at 1. unfold lift at 1. rewrite Hsel.
  rewrite (auto_select_none_log _ Hsel). cbn.
  now rewrite <- app_assoc.
Qed.

(** X17.  With an interface given and an interval that is zero or negative:
    once the speed test has returned, [main] gets five empty lists from the
    monitor, which has warned about the interval without asking the host,
    then warns that no data was captured and returns; nothing is drawn. *)
Theorem main_invalid_interval (args : Namespace) (fuel : nat)
  (s s2 : AppState W) (name : string)
  (speeds : option Q * option Q * option Q) :
  arg_list args = false ->
  arg_interface args = Some name ->
  name <> "" ->
  (arg_interval args <= 0)%Z ->
  check_internet_speed
    (mkApp (aworld s)
       (journal s ++ [AppInfoLine (Starting name (arg_duration args))]))
  = (s2, Done speeds) ->
  main args fuel s
  = (mkApp (aworld s2)
       (journal s2
        ++ [Core (Warning AlertInvalidInterval);
            AppWarning AlertCaptureFailed]),
     Done tt).
Proof.
  intros Hlist Hif Hname Hle Hspeed. unfold main. rewrite Hlist, Hif.
  assert (Htrue : truthy (Some name) = true).
  { cbn. now destruct (String.eqb_spec name ""). }
  rewrite Htrue.
  unfold abind at 1. unfold aret at 1.
  unfold abind at 1. unfold aret at 1. rewrite Htrue.
  unfold abind at 1. unfold app_info at 1, record at 1.
  unfold abind at 1. rewrite Hspeed.
  unfold abind at 1. unfold lift at 1.
  assert (Hbad : Qle_bool (inject_Z (arg_interval args)) 0 = true).
  { apply Qle_bool_iff. change 0%Q with (inject_Z 0). now rewrite <- Zle_Qle. }
  unfold monitor_network_traffic, bind, new_lists. rewrite Hbad.
  cbn. unfold app_alert, record. cbn. now rewrite <- app_assoc.
Qed.


(** *** What [main] hands to the plot *)

Section Writes.

Variable P : AppEvent -> Prop.

Lemma writes_nothing {X} (c : A W X) :
  (forall s s' r, c s = (s', r) -> journal s' = journal s) -> writes P c.
Proof.
  intros Hc s s' r Hr. exists []. rewrite app_nil_r. split; [eauto|constructor].
Qed.

Lemma writes_aret {X} (x : X) : writes P (aret x : A W X).
Proof. apply writes_nothing. intros s s' r Hr. now inversion Hr. Qed.

Lemma writes_sys_exit {X} code : writes P (@sys_exit W X code).
Proof. apply writes_nothing. intros s s' r Hr. now inversion Hr. Qed.

Lemma writes_measure {X} (q : W -> W * attempt X) : writes P (measure q).
Proof.
  apply writes_nothing. intros s s' r Hr. unfold measure in Hr.
  destruct (q (aworld s)). now inversion Hr.
Qed.

Lemma writes_record ev : P ev -> writes P (record ev : A W unit).
Proof.
  intros Hev s s' r Hr. inversion Hr; subst. exists [ev]. cbn.
  split; [reflexivity|now constructor].
Qed.

Lemma writes_draw c : P (Drawn c) -> writes P (draw c).
Proof.
  intros Hev s s' r Hr. unfold draw in Hr. destruct (pyplot c (aworld s)).
  inversion Hr; subst. exists [Drawn c]. cbn.
  split; [reflexivity|now constructor].
Qed.

Lemma writes_lift {X} (c : M W X) :
  (forall ev, P (Core ev)) -> writes P (lift c).
Proof.
  intros Hcore s s' r Hr. unfold lift in Hr.
  destruct (c _) as [st' res]. inversion Hr; subst. cbn.
  eexists. split; [reflexivity|]. apply Forall_map.
  apply Forall_forall. auto.
Qed.

(** Sequencing, with what is known of the value passed on. *)
Lemma writes_abind {X Y} (Q : X -> Prop) (c : A W X) (k : X -> A W Y) :
  writes P c ->
  (forall s s' x, c s = (s', Done x) -> Q x) ->
  (forall x, Q x -> writes P (k x)) ->
  writes P (abind c k).
Proof.
  intros Hc HQ Hk s s' r Hr. unfold abind in Hr.
  destruct (c s) as [s1 [x|e|]] eqn:Hcs;
    destruct (Hc _ _ _ Hcs) as (evs1 & Hj1 & Hall1).
  - destruct (Hk x (HQ _ _ _ Hcs) _ _ _ Hr) as (evs2 & Hj2 & Hall2).
    exists (evs1 ++ evs2). rewrite Hj2, Hj1, app_assoc.
    split; [reflexivity|]. apply Forall_app. now split.
  - inversion Hr; subst. eauto.
  - inversion Hr; subst. eauto.
Qed.

Lemma writes_then {X Y} (c : A W X) (k : X -> A W Y) :
  writes P c -> (forall x, writes P (k x)) -> writes P (abind c k).
Proof.
  intros Hc Hk. apply writes_abind with (Q := fun _ => True); auto.
Qed.

Lemma writes_try_config {X} (c : A W X) (h : string -> A W X) :
  writes P c -> (forall m, writes P (h m)) -> writes P (try_config c h).
Proof.
  intros Hc Hh s s' r Hr. unfold try_config in Hr.
  destruct (c s) as [s1 res] eqn:Hcs.
  destruct (Hc _ _ _ Hcs) as (evs1 & Hj1 & Hall1).
  destruct res as [x|[e|msg|code]|]; try (inversion Hr; subst; eauto; fail).
  destruct (Hh msg _ _ _ Hr) as (evs2 & Hj2 & Hall2).
  exists (evs1 ++ evs2). rewrite Hj2, Hj1, app_assoc.
  split; [reflexivity|]. apply Forall_app. now split.
Qed.

Lemma writes_try_exception {X} (c : A W X) (h : string -> A W X) :
  writes P c -> (forall m, writes P (h m)) -> writes P (try_exception c h).
Proof.
  intros Hc Hh s s' r Hr. unfold try_exception in Hr.
  destruct (c s) as [s1 res] eqn:Hcs.
  destruct (Hc _ _ _ Hcs) as (evs1 & Hj1 & Hall1).
  destruct res as [x|[[|msg]|msg|code]|];
    try (inversion Hr; subst; eauto; fail);
    destruct (Hh msg _ _ _ Hr) as (evs2 & Hj2 & Hall2);
    exists (evs1 ++ evs2); rewrite Hj2, Hj1, app_assoc;
    (split; [reflexivity|]); apply Forall_app; now split.
Qed.

Lemma writes_draw_texts points :
  (forall x y, P (Drawn (plt_text x y))) -> writes P (draw_texts points).
Proof.
  intros Htext. induction points as [|[x y] rest IH]; cbn [draw_texts].
  - apply writes_aret.
  - apply writes_then; [now apply writes_draw|intros _; exact IH].
Qed.

Lemma writes_print_interfaces names :
  (forall line, P (Printed line)) ->
  writes P (print_interfaces names : A W unit).
Proof.
  intros Hline. induction names as [|n rest IH]; cbn [print_interfaces].
  - apply writes_aret.
  - apply writes_then; [now apply writes_record|intros _; exact IH].
Qed.

End Writes.

Lemma check_internet_speed_writes (P : AppEvent -> Prop) :
  (forall a, P (AppWarning a)) -> (forall i, P (AppInfoLine i)) ->
  writes P check_internet_speed.
Proof.
  intros Hw Hi. unfold check_internet_speed.
  apply writes_then; [apply writes_measure|intros _].
  apply writes_try_config.
  - apply writes_then; [apply writes_measure|intros _].
    apply writes_then; [apply writes_measure|intros d].
    apply writes_then; [apply writes_measure|intros u].
    apply writes_then.
    { apply writes_nothing. intros s s' r Hr. now inversion Hr. }
    intros p. unfold app_info, app_alert.
    repeat (apply writes_then; [|intros _]);
      try (apply writes_record; auto);
      try apply writes_aret.
    + destruct (Qltb _ _); [apply writes_record; auto|apply writes_aret].
    + destruct (Qltb _ _); [apply writes_record; auto|apply writes_aret].
  - intros m. unfold app_alert.
    apply writes_then; [apply writes_record; auto|intros _; apply writes_aret].
Qed.

Lemma plot_network_traffic_writes (time_values bw_values : list Q)
  (tcp_values udp_values icmp_values : list nat) save_path :
  time_values <> [] -> bw_values <> [] ->
  List.length tcp_values = List.length udp_values ->
  List.length udp_values = List.length icmp_values ->
  (List.length icmp_values <= List.length bw_values)%nat ->
  (List.length bw_values <= List.length time_values)%nat ->
  (List.length time_values <= S (List.length icmp_values))%nat ->
  writes well_plotted
    (plot_network_traffic time_values bw_values tcp_values udp_values
       icmp_values save_path).
Proof.
  intros Ht Hb Hcu Hui Hib Hbt Hti. unfold plot_network_traffic.
  assert (Hbl : List.length bw_values <> 0%nat).
  { intros E. apply length_zero_iff_nil in E. contradiction. }
  repeat (apply writes_then; [|intros _]);
    try (apply writes_draw; cbn; try exact I;
         repeat split; auto; try lia; discriminate).
  - apply writes_draw_texts. intros; exact I.
  - destruct save_path as [path|]; [|apply writes_aret].
    destruct (truthy (Some path)); [|apply writes_aret].
    apply writes_try_exception.
    + apply writes_then; [now apply writes_draw|intros _].
      now apply writes_record.
    + intros m. now apply writes_record.
Qed.

(** What the monitor hands back to [main]. *)
Lemma lift_monitor_staggered interface duration interval force_monitor fuel
  (s s' : AppState W) time_values bw_values tcp_values udp_values
  icmp_values :
  lift (monitor_network_traffic interface duration interval force_monitor
          fuel) s
  = (s', Done (time_values, bw_values, tcp_values, udp_values, icmp_values)) ->
  List.length tcp_values = List.length udp_values /\
  List.length udp_values = List.length icmp_values /\
  (List.length icmp_values <= List.length bw_values)%nat /\
  (List.length bw_values <= List.length time_values)%nat /\
  (List.length time_values <= S (List.length icmp_values))%nat.
Proof.
  unfold lift. intros Hr.
  destruct (monitor_network_traffic _ _ _ _ _ _) as [st' res] eqn:Hm.
  destruct res as [r| |]; try discriminate.
  inversion Hr; subst; clear Hr.
  destruct (monitor_cases _ _ _ _ _ _ Hm)
    as [(Hl & Hres & _)
       | (st0 & t0 & s0 & r0 & st1 & res1 & Hent & Hloop & Hend)].
  - specialize (Hres _ eq_refl). unfold no_samples in Hres.
    inversion Hres; subst. cbn. lia.
  - assert (Hst1 : staggered st1).
    { eapply while_loop_invariant with (Inv := aligned) (P := staggered);
        [ exact aligned_staggered
        | intros; eapply iteration_staggered; eauto
        | | exact Hloop ].
      destruct (entry_level _ _ Hent) as (?&?&?&?&?).
      unfold aligned. lia. }
    assert (Hlists : (time_values, bw_values, tcp_values, udp_values,
                      icmp_values) = lists_of st1).
    { destruct res1 as [[]|e|]; destruct Hend as [_ Heq];
        now inversion Heq. }
    unfold lists_of in Hlists. inversion Hlists; subst. exact Hst1.
Qed.

(** X18.  Whatever the arguments and the host, and however [main] ends:
    every series it has had drawn is over a time list that is not empty,
    with as many values as times or one fewer, and the bandwidth series is
    never empty.  The time list may be one longer than the values drawn
    against it. *)
Theorem main_plots_staggered_series (args : Namespace) (fuel : nat)
  (s s' : AppState W) (r : aoutcome unit) :
  main args fuel s = (s', r) ->
  exists evs, journal s' = journal s ++ evs /\ Forall well_plotted evs.
Proof.
  revert s s' r. change (writes well_plotted (main args fuel)).
  unfold main.
  apply writes_then.
  { destruct (arg_list args); [|apply writes_aret].
    unfold print. apply writes_then; [now apply writes_record|intros _].
    apply writes_then; [now apply writes_lift|intros names].
    apply writes_then; [now apply writes_print_interfaces|intros _].
    apply writes_sys_exit. }
  intros _. apply writes_then.
  { destruct (truthy (arg_interface args));
      [apply writes_aret|now apply writes_lift]. }
  intros [name|].
  2:{ unfold app_alert.
      apply writes_then; [now apply writes_record|intros _].
      apply writes_sys_exit. }
  destruct (truthy (Some name)).
  2:{ unfold app_alert.
      apply writes_then; [now apply writes_record|intros _].
      apply writes_sys_exit. }
  unfold app_info. apply writes_then; [now apply writes_record|intros _].
  apply writes_then; [now apply check_internet_speed_writes|intros _].
  apply writes_abind
    with (Q := fun samples : Samples =>
                 let '(tv, bw, tcp, udp, icmp) := samples in
                 List.length tcp = List.length udp /\
                 List.length udp = List.length icmp /\
                 (List.length icmp <= List.length bw)%nat /\
                 (List.length bw <= List.length tv)%nat /\
                 (List.length tv <= S (List.length icmp))%nat).
  - now apply writes_lift.
  - intros sa sb [[[[tv bw] tcp] udp] icmp] Hm.
    exact (lift_monitor_staggered _ _ _ _ _ _ Hm).
  - intros [[[[tv bw] tcp] udp] icmp] (Hcu & Hui & Hib & Hbt & Hti).
    destruct tv as [|t tv]; [unfold app_alert; now apply writes_record|].
    destruct bw as [|b bw]; [unfold app_alert; now apply writes_record|].
    cbn [nonempty andb].
    apply plot_network_traffic_writes; auto; discriminate.
Qed.

End Application_facts.

(** * The properties on scripted hosts *)

(** Section 8's run: every sample is 1 Mbit/s sent, nothing received. *)
Example steady_run :
  snd (monitor_network_traffic "eth0" 3 1 false 4 (start_state steady_host))
  = Ok ([py_round1 0; py_round1 1; py_round1 2],
        [bandwidth 131072 0 1 + bandwidth 0 0 1;
         bandwidth 262144 131072 1 + bandwidth 0 0 1;
         bandwidth 393216 262144 1 + bandwidth 0 0 1]%Q,
        [0; 0; 0]%nat, [0; 0; 0]%nat, [0; 0; 0]%nat)
  /\ (bandwidth 131072 0 1 == 1)%Q
  /\ (bandwidth 262144 131072 1 == 1)%Q
  /\ (bandwidth 393216 262144 1 == 1)%Q.
Proof. repeat split. Qed.


(** C3 on a host whose link goes down at the second tick. *)
Lemma monitor_link_down_witness :
  monitor_network_traffic "eth0" 30 1 false (1 + 1)
    (start_state link_down_host)
  = (add_log (set_world link_down_tick1 link_down_world)
       [Warning (AlertLinkDown "eth0")],
     Ok (lists_of link_down_tick1))
  /\ level 1 link_down_tick1.
Proof.
  eapply (monitor_link_down (W := Script));
    [ reflexivity | vm_compute; reflexivity | vm_compute; reflexivity
    | reflexivity | vm_compute; reflexivity | vm_compute; reflexivity
    | reflexivity ].
Defined.

(** The one sample of the first tick is what the caller gets. *)
Example link_down_run :
  snd (monitor_network_traffic "eth0" 30 1 false 2
         (start_state link_down_host))
  = Ok ([py_round1 0], [(bandwidth 131072 0 1 + bandwidth 0 0 1)%Q],
        [0%nat], [0%nat], [0%nat])
  /\ log (fst (monitor_network_traffic "eth0" 30 1 false 2
                 (start_state link_down_host)))
     = [Info (MonitoringStarted "eth0");
        Debug (CurrentCounters 131072 0);
        Debug (Bandwidth (bandwidth 131072 0 1) (bandwidth 0 0 1)
                 (bandwidth 131072 0 1 + bandwidth 0 0 1));
        Debug (Connections 0 0 0);
        Warning (AlertLinkDown "eth0")].
Proof. split; reflexivity. Qed.

(** C4 at interval 0. *)
Lemma monitor_invalid_interval_witness :
  monitor_network_traffic "eth0" 30 0 false 5 (start_state steady_host)
  = (mkState (world (start_state steady_host))
       (log (start_state steady_host) ++ [Warning AlertInvalidInterval])
       [] [] [] [] [],
     Ok no_samples).
Proof.
  apply (monitor_invalid_interval (W := Script)). unfold Qle. simpl. lia.
Defined.

(** An interface the host does not have, on a host that answers the second
    counters query. *)
Lemma monitor_interface_not_found_witness :
  monitor_network_traffic "wlan0" 30 1 false 5 (start_state steady_host)
  = (mkState (later 2 0 steady_host)
       (log (start_state steady_host)
        ++ [Warning (AlertInterfaceNotFound "wlan0");
            Info (AvailableInterfaces
                    (listed_interfaces (eth0_counters 131072 0)))])
       [] [] [] [] [],
     Ok no_samples).
Proof.
  apply (@monitor_interface_not_found Script ScriptHost "wlan0" 30 1 false 5
           (start_state steady_host) (later 1 0 steady_host)
           (later 2 0 steady_host) (eth0_counters 0 0)
           (eth0_counters 131072 0));
    reflexivity.
Defined.

(** C5 on a host without wlan0 whose second counters query raises: the
    exception leaves the function. *)
Lemma monitor_not_found_listing_raises_witness :
  monitor_network_traffic "wlan0" 30 1 false 5 (start_state unlisted_host)
  = (mkState (later 2 0 unlisted_host)
       (log (start_state unlisted_host)
        ++ [Warning (AlertInterfaceNotFound "wlan0")])
       [] [] [] [] [],
     Raise (Exception "gone")).
Proof.
  apply (@monitor_not_found_listing_raises Script ScriptHost "wlan0" 30 1
           false 5 (start_state unlisted_host) (later 1 0 unlisted_host)
           (later 2 0 unlisted_host) (eth0_counters 0 0)
           (Exception "gone"));
    reflexivity.
Defined.

(** The same failing query made by line 116, inside the [try]: the
    exception is caught, a warning tells of it, and the lists are
    returned. *)
Example listing_raises_in_loop_caught :
  snd (monitor_network_traffic "eth0" 30 1 false 2
         (start_state unlisted_in_loop_host))
  = Ok no_samples
  /\ log (fst (monitor_network_traffic "eth0" 30 1 false 2
                 (start_state unlisted_in_loop_host)))
     = [Info (MonitoringStarted "eth0");
        Warning (AlertStatusUnavailable "eth0");
        Warning (AlertError "gone")].
Proof. split; reflexivity. Qed.

(** C6 as stated fails: with the clock read as 100 at line 107 and as 99.75
    at the first test of the loop condition, the elapsed time is below the
    duration 0, the body runs once, and the call returns one sample. *)
Lemma zero_duration_clock_back_samples :
  snd (monitor_network_traffic "eth0" 0 1 false 2
         (start_state clock_back_host))
  = Ok ([py_round1 ((399 # 4) - 100)],
        [(bandwidth 131072 0 1 + bandwidth 0 0 1)%Q],
        [0%nat], [0%nat], [0%nat])
  /\ snd (monitor_network_traffic "eth0" 0 1 false 2
            (start_state clock_back_host))
     <> Ok no_samples
  /\ (py_round1 ((399 # 4) - 100) == - (1 # 5))%Q
  /\ (bandwidth 131072 0 1 + bandwidth 0 0 1 == 1)%Q.
Proof.
  split; [vm_compute; reflexivity|].
  split; [vm_compute; discriminate|].
  split; vm_compute; reflexivity.
Qed.

(** C6, amended, on the steady host, whose first two clock readings are
    equal. *)
Lemma monitor_zero_duration_witness :
  monitor_network_traffic "eth0" 0 1 false 1 (start_state steady_host)
  = (mkState (later 1 2 steady_host)
       (log (start_state steady_host) ++ [Info (MonitoringStarted "eth0")])
       [] [] [] [] [],
     Ok no_samples).
Proof.
  eapply (monitor_zero_duration (W := Script));
    [ reflexivity | vm_compute; reflexivity | vm_compute; reflexivity
    | vm_compute; discriminate ].
Defined.


(** Section 8's two cases of [selectActiveInterface]. *)
Example select_eth1 :
  snd (auto_select_interface (start_state select_host)) = Ok (Some "eth1").
Proof. reflexivity. Qed.

Example select_none :
  snd (auto_select_interface (start_state silent_host)) = Ok None.
Proof. reflexivity. Qed.

(** C8 for an interrupt during the sleep of the second tick. *)
Lemma monitor_keyboard_interrupt_witness :
  monitor_network_traffic "eth0" 30 1 false (1 + 1)
    (start_state interrupt_host)
  = (add_log interrupt_tick2 [Warning AlertInterrupted],
     Ok (lists_of interrupt_tick2))
  /\ grows interrupt_tick1 interrupt_tick2 /\ level 1 interrupt_tick1.
Proof.
  eapply (monitor_keyboard_interrupt (W := Script));
    [ reflexivity | vm_compute; reflexivity | vm_compute; reflexivity ].
Defined.

(** Two samples are returned after the interrupt of the second sleep. *)
Example interrupt_run :
  snd (monitor_network_traffic "eth0" 30 1 false 5
         (start_state interrupt_host))
  = Ok ([py_round1 0; py_round1 1],
        [bandwidth 131072 0 1 + bandwidth 0 0 1;
         bandwidth 262144 131072 1 + bandwidth 0 0 1]%Q,
        [0; 0]%nat, [0; 0]%nat, [0; 0]%nat).
Proof. reflexivity. Qed.

(** C9 as stated fails: when the counters query of the first tick raises,
    the session ends in the [except] clause, not by the query returning
    nothing (the warning of line 126 is not written), and the time list has
    one element while the bandwidth list has none. *)
Lemma lengths_differ_after_exception :
  monitor_network_traffic "eth0" 30 1 false 3
    (start_state failing_counters_host)
  = (failing_final, Ok ([py_round1 0], [], [], [], []))
  /\ log failing_final
     = [Info (MonitoringStarted "eth0"); Warning (AlertError "read error")]
  /\ existsb counters_unavailable_alert (log failing_final) = false
  /\ List.length (time_values failing_final)
     <> List.length (bw_values failing_final).
Proof. repeat split. discriminate. Qed.

(** C9, amended, on that session. *)
Lemma monitor_lengths_witness :
  ([py_round1 0], [], [], [], []) = lists_of failing_final /\
  exists evs,
    log failing_final = log (start_state failing_counters_host) ++ evs /\
    (existsb counters_unavailable_alert evs = true ->
     List.length (time_values failing_final)
     = S (List.length (bw_values failing_final))) /\
    (existsb counters_unavailable_alert evs = false ->
     existsb exception_alert evs = false ->
     List.length (time_values failing_final)
     = List.length (bw_values failing_final)) /\
    (List.length (time_values failing_final)
     = List.length (bw_values failing_final) \/
     List.length (time_values failing_final)
     = S (List.length (bw_values failing_final))).
Proof.
  apply (@monitor_lengths Script ScriptHost "eth0" 30 1 false 3
           (start_state failing_counters_host)).
  vm_compute; reflexivity.
Defined.



(** ** The further properties on scripted hosts *)

(** X1 on the steady host. *)
Lemma get_available_interfaces_without_loopback_witness :
  exists names,
    get_available_interfaces (start_state steady_host)
    = (set_world (start_state steady_host) (later 1 0 steady_host),
       Ok names) /\
    names = filter (fun y => negb (String.eqb "lo" y))
              (dict_keys (eth0_counters 0 0)) /\
    ~ In "lo" names /\
    NoDup names /\
    (forall x, In x names
               <-> In x (dict_keys (eth0_counters 0 0)) /\ x <> "lo").
Proof.
  apply (get_available_interfaces_without_loopback (W := Script)).
  - unfold dict_wf. simpl. repeat constructor; simpl; intuition discriminate.
  - reflexivity.
Defined.

(** X2 on a host where eth1 has moved bytes only by the time it is asked
    about: eth0 is passed over on the second answer, eth1 is found active
    in the third. *)
Lemma auto_select_interface_sound_witness :
  lists_of waking_final = lists_of (start_state waking_host) /\
  In "eth1" (dict_keys [("lo", counters_of 7 7); ("eth0", counters_of 0 0);
                        ("eth1", counters_of 0 0)]) /\
  "eth1" <> "lo" /\
  log waking_final
  = log (start_state waking_host) ++ [Info (InterfaceActive "eth1")] /\
  exists before after wq current stats,
    listed_interfaces [("lo", counters_of 7 7); ("eth0", counters_of 0 0);
                       ("eth1", counters_of 0 0)]
    = before ++ "eth1" :: after /\
    passed_over before (later 1 0 waking_host) wq /\
    net_io_counters wq = (world waking_final, Returns current) /\
    dict_get "eth1" current = Some stats /\
    ((0 < bytes_sent stats)%N \/ (0 < bytes_recv stats)%N).
Proof.
  apply (@auto_select_interface_sound Script ScriptHost
           (start_state waking_host) waking_final (later 1 0 waking_host)
           [("lo", counters_of 7 7); ("eth0", counters_of 0 0);
            ("eth1", counters_of 0 0)]
           (Some "eth1")).
  - unfold dict_wf. simpl. repeat constructor; simpl; intuition discriminate.
  - reflexivity.
  - vm_compute; reflexivity.
Defined.

(** X3 on a forced session whose interface leaves the status table. *)
Lemma monitor_status_unavailable_witness :
  monitor_network_traffic "eth0" 30 1 true (1 + 1)
    (start_state vanished_host)
  = (add_log (set_world vanished_tick1 drained)
       [Warning (AlertStatusUnavailable "eth0");
        Info (AvailableInterfaces
                (listed_interfaces [("lo", counters_of 7 7)]))],
     Ok (lists_of vanished_tick1))
  /\ level 1 vanished_tick1.
Proof.
  eapply (monitor_status_unavailable (W := Script));
    [ reflexivity | vm_compute; reflexivity | vm_compute; reflexivity
    | reflexivity | vm_compute; reflexivity | reflexivity | reflexivity ].
Defined.

(** X4 on a session whose interface leaves the counters dict. *)
Lemma monitor_counters_unavailable_witness :
  monitor_network_traffic "eth0" 30 1 false (1 + 1)
    (start_state unplugged_host)
  = (mkState drained
       (log unplugged_tick1
        ++ [Warning (AlertCountersUnavailable "eth0");
            Info (AvailableInterfaces
                    (listed_interfaces [("lo", counters_of 7 7)]))])
       (time_values unplugged_tick1 ++ [py_round1 (101 - 100)])
       (bw_values unplugged_tick1) (tcp_values unplugged_tick1)
       (udp_values unplugged_tick1) (icmp_values unplugged_tick1),
     Ok (time_values unplugged_tick1 ++ [py_round1 (101 - 100)],
         bw_values unplugged_tick1, tcp_values unplugged_tick1,
         udp_values unplugged_tick1, icmp_values unplugged_tick1))
  /\ level 1 unplugged_tick1.
Proof.
  eapply (monitor_counters_unavailable (W := Script));
    [ reflexivity | vm_compute; reflexivity | vm_compute; reflexivity
    | reflexivity | vm_compute; reflexivity | reflexivity
    | left; reflexivity | vm_compute; reflexivity | reflexivity
    | reflexivity ].
Defined.

(** X5 on section 8's run. *)
Lemma monitor_duration_over_witness :
  monitor_network_traffic "eth0" 3 1 false (3 + 1) (start_state steady_host)
  = (set_world steady_tick3 steady_end_world,
     Ok (lists_of steady_tick3))
  /\ level 3 steady_tick3
  /\ exists evs,
       log steady_tick3 = log (start_state steady_host) ++ evs /\
       existsb is_warning evs = false.
Proof.
  eapply (monitor_duration_over (W := Script));
    [ reflexivity | vm_compute; reflexivity | vm_compute; reflexivity
    | vm_compute; discriminate ].
Defined.

(** X6 on a forced pass over a down link, with two connections open. *)
Lemma iteration_complete_tick_witness :
  exists st',
    iteration "eth0" 1 1 true 100 0 0 down_entry
    = (st', Ok (Next (bytes_sent (counters_of 131072 65536))
                  (bytes_recv (counters_of 131072 65536))))
    /\ world st' = mkScript [] [] [] [Returns 101%Q] []
    /\ time_values st' = time_values down_entry ++ [py_round1 (100 - 100)]
    /\ bw_values st'
       = bw_values down_entry
         ++ [(bandwidth (bytes_sent (counters_of 131072 65536)) 0 1
              + bandwidth (bytes_recv (counters_of 131072 65536)) 0 1)%Q]
    /\ tcp_values st'
       = tcp_values down_entry
         ++ [List.length
               [mk_sconn 3 "10.0.0.2:22" "10.0.0.9:5050" "ESTABLISHED"
                  (Some 812%N);
                mk_sconn 4 "10.0.0.2:80" "" "LISTEN" None]]
    /\ udp_values st' = udp_values down_entry ++ [List.length (@nil sconn)]
    /\ icmp_values st'
       = icmp_values down_entry
         ++ [List.length (filter icmp_in (dict_values (eth0_status false)))]
    /\ (Forall (fun s => flags s <> "icmp")
          (dict_values (eth0_status false)) ->
        icmp_values st' = icmp_values down_entry ++ [0%nat]).
Proof.
  eapply (iteration_complete_tick (W := Script));
    [ vm_compute; reflexivity | reflexivity | vm_compute; reflexivity
    | reflexivity | right; reflexivity | vm_compute; reflexivity
    | reflexivity | vm_compute; reflexivity | vm_compute; reflexivity
    | vm_compute; reflexivity | vm_compute; reflexivity ].
Defined.

(** X7 on the session whose interface leaves the counters dict. *)
Lemma monitor_lists_ordered_witness :
  ordered_lengths unplugged_final /\
  (forall r,
     Ok (time_values unplugged_final, bw_values unplugged_final,
         tcp_values unplugged_final, udp_values unplugged_final,
         icmp_values unplugged_final) = Ok r ->
     r = lists_of unplugged_final).
Proof.
  apply (@monitor_lists_ordered Script ScriptHost "eth0" 30 1 false 3
           (start_state unplugged_host)).
  vm_compute; reflexivity.
Defined.

(** X8 on the forced session over a link that is down all along. *)
Lemma forced_monitor_never_reports_link_down_witness :
  exists evs,
    log down_final = log (start_state down_host) ++ evs /\
    existsb link_down_alert evs = false.
Proof.
  apply (@forced_monitor_never_reports_link_down Script ScriptHost "eth0" 1
           1 3 (start_state down_host) down_final
           (Ok (lists_of down_final))).
  vm_compute; reflexivity.
Defined.

(** The forced session has taken its sample. *)
Example forced_run :
  snd (monitor_network_traffic "eth0" 1 1 true 3 (start_state down_host))
  = Ok ([py_round1 0],
        [(bandwidth 131072 0 1 + bandwidth 65536 0 1)%Q],
        [2%nat], [0%nat], [0%nat]).
Proof. reflexivity. Qed.

(** X9 at the first tick of section 8's run. *)
Lemma iteration_records_tested_time_witness :
  (time_values steady_tick1 = time_values steady_entry /\
   forall sent' recv',
     Ok (Next 131072 0) <> Ok (Next sent' recv' : ctl)) \/
  (exists w1 now,
     time_time (world steady_entry) = (w1, Returns now) /\
     (now - 100 < 3)%Q /\
     time_values steady_tick1
     = time_values steady_entry ++ [py_round1 (now - 100)]).
Proof.
  apply (@iteration_records_tested_time Script ScriptHost "eth0" 3 1 false
           100 0 0 steady_entry steady_tick1 (Ok (Next 131072 0))).
  vm_compute; reflexivity.
Defined.

(** A pass that tests an elapsed time of 0.96 s against a duration of 1 s
    records the time 1.0. *)
Example recorded_time_reaches_duration :
  snd (monitor_network_traffic "eth0" 1 1 false 2 (start_state late_host))
  = Ok ([py_round1 ((2524 # 25) - 100)],
        [(bandwidth 131072 0 1 + bandwidth 0 0 1)%Q],
        [0%nat], [0%nat], [0%nat])
  /\ ((2524 # 25) - 100 < 1)%Q
  /\ (py_round1 ((2524 # 25) - 100) == 1)%Q.
Proof.
  split; [vm_compute; reflexivity|]. split; vm_compute; reflexivity.
Qed.

(** ** The speed test, the plot and [main] on a scripted desk *)

(** X11 for 4 Mbit/s down and 2 Mbit/s up: only the download is slow. *)
Lemma check_internet_speed_measures_witness :
  check_internet_speed (app_start (desk drained))
  = (mkApp (mkDesk drained [] [] [] [] 23 [])
       (journal (app_start (desk drained))
        ++ [AppInfoLine (DownloadSpeed (4000000 / 1000000));
            AppInfoLine (UploadSpeed (2000000 / 1000000));
            AppInfoLine (PingTime
                           (results_ping (mkDesk drained [] [] [] [] 23 [])))]
        ++ (if Qltb 4000000 5000000
            then [AppWarning AlertSlowDownload] else [])
        ++ (if Qltb 2000000 1000000
            then [AppWarning AlertSlowUpload] else [])),
     Done (Some (4000000 / 1000000)%Q, Some (2000000 / 1000000)%Q,
           Some (results_ping (mkDesk drained [] [] [] [] 23 [])))).
Proof.
  apply (@check_internet_speed_measures Desk DeskSpeedtest
           (app_start (desk drained))
           (mkDesk drained [] [Gives tt] [Gives 4000000%Q]
              [Gives 2000000%Q] 23 [])
           (mkDesk drained [] [] [Gives 4000000%Q] [Gives 2000000%Q] 23 [])
           (mkDesk drained [] [] [] [Gives 2000000%Q] 23 [])
           (mkDesk drained [] [] [] [] 23 []));
    reflexivity.
Defined.

Example slow_download_run :
  journal slow_final
  = [AppInfoLine (DownloadSpeed (4000000 / 1000000));
     AppInfoLine (UploadSpeed (2000000 / 1000000));
     AppInfoLine (PingTime 23);
     AppWarning AlertSlowDownload].
Proof. reflexivity. Qed.

(** X12 for a configuration error during the download. *)
Lemma check_internet_speed_outcomes_witness :
  (exists msg,
     journal offline_final
     = journal (app_start (offline_desk drained))
       ++ [AppWarning (AlertConfigRetrieval msg)]) /\
  (forall w e,
     Speedtest_init (aworld (app_start (offline_desk drained)))
     = (w, Throws e) ->
     Done (@None Q, @None Q, @None Q) = Raised e).
Proof.
  apply (@check_internet_speed_outcomes Desk DeskSpeedtest
           (app_start (offline_desk drained)) offline_final
           (Done (None, None, None))).
  vm_compute; reflexivity.
Defined.

(** A desk whose speed test cannot even be set up. *)
Example speedtest_init_fails :
  snd (check_internet_speed
         (app_start (mkDesk drained
                       [Throws (ConfigRetrievalError "HTTP Error 403")]
                       [] [] [] 0 [])))
  = Raised (ConfigRetrievalError "HTTP Error 403").
Proof. reflexivity. Qed.

(** X13 for a plot that cannot be saved: it is shown all the same, with one
    text for the one pair of the two lists. *)
Lemma plot_network_traffic_returns_witness :
  exists saving,
    journal full_disk_final
    = journal (app_start (full_disk_desk drained))
      ++ drawing [0%Q; 1%Q] [3%Q] [5%nat] [6%nat] [0%nat]
      ++ saving ++ [Drawn plt_show] /\
    List.length (combine [0%Q; 1%Q] [3%Q])
    = Nat.min (List.length [0%Q; 1%Q]) (List.length [3%Q]) /\
    (if String.eqb "plot.png" "" then saving = []
     else saving = [Drawn (plt_savefig "plot.png");
                    AppInfoLine (PlotSaved "plot.png")]
          \/ exists msg,
               saving = [Drawn (plt_savefig "plot.png");
                         AppWarning (AlertSaveFailed msg)]).
Proof.
  apply (@plot_network_traffic_returns Desk DeskPyplot [0%Q; 1%Q] [3%Q]
           [5%nat] [6%nat] [0%nat] (Some "plot.png")
           (app_start (full_disk_desk drained)) full_disk_final).
  vm_compute; reflexivity.
Defined.

Example full_disk_run :
  journal full_disk_final
  = drawing [0%Q; 1%Q] [3%Q] [5%nat] [6%nat] [0%nat]
    ++ [Drawn (plt_savefig "plot.png");
        AppWarning (AlertSaveFailed "No space left on device");
        Drawn plt_show].
Proof. reflexivity. Qed.

(** X14 for an interrupt while the plot is shown. *)
Lemma plot_network_traffic_raises_witness :
  exists call e',
    ends_in (journal (app_start (closing_desk drained)))
      (journal closing_final) call /\
    Plain KeyboardInterrupt = Plain e' /\
    (forall path, call = plt_savefig path -> e' = KeyboardInterrupt).
Proof.
  apply (@plot_network_traffic_raises Desk DeskPyplot [0%Q; 1%Q] [3%Q]
           [5%nat] [6%nat] [0%nat] None
           (app_start (closing_desk drained)) closing_final
           (Raised (Plain KeyboardInterrupt))).
  vm_compute; reflexivity.
Defined.

(** X15 on the steady host. *)
Lemma main_lists_interfaces_witness :
  main list_args 5 (app_start (desk steady_host))
  = (mkApp (desk (later 1 0 steady_host))
       (journal (app_start (desk steady_host))
        ++ Printed "Interfaces disponíveis:"
           :: map listed_line
                (filter (fun y => negb (String.eqb "lo" y))
                   (dict_keys (eth0_counters 0 0)))),
     Raised (SystemExit 0)).
Proof.
  apply (@main_lists_interfaces Desk DeskHost DeskSpeedtest DeskPyplot
           list_args 5 (app_start (desk steady_host))).
  - reflexivity.
  - unfold dict_wf. simpl. repeat constructor; simpl; intuition discriminate.
  - reflexivity.
Defined.

Example list_run :
  journal (fst (main list_args 5 (app_start (desk steady_host))))
  = [Printed "Interfaces disponíveis:"; Printed "- eth0"].
Proof. reflexivity. Qed.

(** X16 on a host whose interfaces have moved no byte. *)
Lemma main_without_interface_witness :
  main auto_args 5 (app_start (desk silent_host))
  = (mkApp (world silent_selected)
       (journal (app_start (desk silent_host))
        ++ [Core (Warning AlertNoActiveInterface);
            AppWarning AlertNoInterfaceInSystem]),
     Raised (SystemExit 1)).
Proof.
  apply (@main_without_interface Desk DeskHost DeskSpeedtest DeskPyplot
           auto_args 5 (app_start (desk silent_host)) silent_selected);
    [ reflexivity | reflexivity | vm_compute; reflexivity ].
Defined.

(** X17 for [--interval 0]. *)
Lemma main_invalid_interval_witness :
  main bad_interval_args 5 (app_start (desk steady_host))
  = (mkApp (aworld bad_interval_checked)
       (journal bad_interval_checked
        ++ [Core (Warning AlertInvalidInterval);
            AppWarning AlertCaptureFailed]),
     Done tt).
Proof.
  apply (@main_invalid_interval Desk DeskHost DeskSpeedtest DeskPyplot
           bad_interval_args 5 (app_start (desk steady_host))
           bad_interval_checked "eth0"
           (Some (4000000 / 1000000)%Q, Some (2000000 / 1000000)%Q,
            Some 23%Q));
    [ reflexivity | reflexivity | discriminate | simpl; lia
    | vm_compute; reflexivity ].
Defined.

(** X18 on the session whose interface leaves the counters dict at the
    second tick. *)
Lemma main_plots_staggered_series_witness :
  exists evs,
    journal unplugged_main_final
    = journal (app_start (desk unplugged_host)) ++ evs /\
    Forall well_plotted evs.
Proof.
  apply (@main_plots_staggered_series Desk DeskHost DeskSpeedtest DeskPyplot
           save_args 3 (app_start (desk unplugged_host))
           unplugged_main_final (Done tt)).
  vm_compute; reflexivity.
Defined.

(** In that run the bandwidth series has one value for two times. *)
Example unplugged_main_run :
  In (Drawn (plt_plot series_bandwidth [py_round1 0; py_round1 1]
               (Rates [(bandwidth 131072 0 1 + bandwidth 0 0 1)%Q])))
    (journal unplugged_main_final).
Proof. vm_compute. tauto. Qed.

(** X19 for a call that follows an earlier one. *)
Lemma monitor_starts_afresh_witness :
  monitor_network_traffic "eth0" 30 1 false 3 used_state
  = (mkState (world failing_final) (log used_state ++ log failing_final)
       (time_values failing_final) (bw_values failing_final)
       (tcp_values failing_final) (udp_values failing_final)
       (icmp_values failing_final),
     Ok ([py_round1 0], [], [], [], [])).
Proof.
  apply (@monitor_starts_afresh Script ScriptHost "eth0" 30 1 false 3
           used_state failing_final).
  vm_compute; reflexivity.
Defined.
